(** * Collectors of the node exporter: CPU counter consolidation, buddyinfo,
      bcache and cpufreq

    A shallow embedding of [cpu_linux.go], [cpufreq_linux.go],
    [buddyinfo.go] and [bcache_linux.go] (package [collector]), and the
    properties of the counter-consolidation cache ([updateCPUStats]), of the
    sample emission of the collectors' [Update] methods, and of the
    collector factories.

    Go's [float64] is IEEE 754 binary64; it is modelled by [spec_float] with
    [prec = 53] and [emax = 1024], whose comparison, subtraction and
    multiplication are the library's executable specifications. *)

From Stdlib Require Import ZArith Floats.SpecFloat.
From stdpp Require Import base option list strings pretty.

Local Open Scope Z_scope.

(** ** float64 *)

Module Float64.

Definition prec : Z := 53.
Definition emax : Z := 1024.

Definition float64 : Type := spec_float.

(** The values a Go [float64] can hold are the canonical ones. *)
Definition valid (x : float64) : bool := valid_binary prec emax x.

(** The zero value of the type ([+0]). *)
Definition zero : float64 := S754_zero false.

(** [m * 2^e], rounded to nearest even: how decimal constants and integer
    conversions are obtained. *)
Definition of_Z2 (m e : Z) : float64 := binary_normalize prec emax m e false.

(** [float64(n)] for [n : uint64]. *)
Definition of_uint64 (n : N) : float64 := of_Z2 (Z.of_N n) 0.

Definition is_nan (x : float64) : bool :=
  match x with S754_nan => true | _ => false end.

Definition sub : float64 → float64 → float64 := SFsub prec emax.
Definition mul : float64 → float64 → float64 := SFmul prec emax.

(** Go's [x >= y], [x < y] and [x <= y]: false as soon as one side is NaN. *)
Definition geb (x y : float64) : bool :=
  match SFcompare x y with
  | Some (Eq | Gt) => true
  | _ => false
  end.
Definition ltb : float64 → float64 → bool := SFltb.
Definition leb : float64 → float64 → bool := SFleb.

#[global] Instance float64_eq_dec : EqDecision float64.
Proof. solve_decision. Defined.

End Float64.

(** ** Metrics, errors and the channel of samples

    The client library's descriptors and constant metrics, Go's [error]
    values and the [(value, err)] results of the procfs and sysfs readers.
    A send [ch <- m] appends [m] to the output of the computation. *)

Module Metrics.
Import Float64.

Inductive ValueType := CounterValue | GaugeValue.

(** [NewDesc(fqName, help, variableLabels, nil)] of the client library. *)
Record Desc := NewDesc {
  fqName : string;
  help : string;
  variableLabels : list string
}.

(** [MustNewConstMetric(desc, valueType, value, labelValues...)]; the check
    of the number of label values is the client library's. *)
Record Metric := MustNewConstMetric {
  desc : Desc;
  valueType : ValueType;
  value : float64;
  labelValues : list string
}.

#[global] Instance ValueType_eq_dec : EqDecision ValueType.
Proof. solve_decision. Defined.
#[global] Instance Desc_eq_dec : EqDecision Desc.
Proof. solve_decision. Defined.
#[global] Instance Metric_eq_dec : EqDecision Metric.
Proof. solve_decision. Defined.

(** An [error] is one a reader of the kernel interfaces returned, or one
    wrapped by [fmt.Errorf(format, err)] with the verb [%w]. *)
Inductive error :=
| DataSourceError (msg : string)
| Errorf (format : string) (wrapped : error).

(** Go's pair [(v, err)]: [err != nil] is [Err]. *)
Inductive result (A : Type) :=
| Ok (v : A)
| Err (err : error).
Arguments Ok {A} v.
Arguments Err {A} err.

(** A computation that sends metrics on [ch] and then yields an [A]. *)
Definition Emit (A : Type) : Type := (list Metric * A)%type.

#[global] Instance Emit_ret : MRet Emit := λ A a, ([], a).
#[global] Instance Emit_bind : MBind Emit := λ A B k m,
  let '(out1, a) := m in
  let '(out2, b) := k a in
  (out1 ++ out2, b).

(** [ch <- m] *)
Definition send (m : Metric) : Emit unit := ([m], tt).

(** [for i, x := range l { body i x }], counting from [i]. *)
Fixpoint forRange {A : Type} (body : nat → A → Emit unit) (i : nat) (l : list A)
  : Emit unit :=
  match l with
  | [] => mret tt
  | x :: l' => body i x ;; forRange body (S i) l'
  end.

(** What was sent on the channel, and what was returned. *)
Definition sent {A : Type} (m : Emit A) : list Metric := m.1.
Definition returned {A : Type} (m : Emit A) : A := m.2.

(** [strconv.Itoa] on a slice index. *)
Definition Itoa (i : nat) : string := pretty i.

(** What tells one time series from another: the descriptor and the label
    values of a sample. *)
Definition seriesKey (m : Metric) : Desc * list string :=
  (desc m, labelValues m).

(** The number of label values of a sample is the number of label names of
    its descriptor: the condition [MustNewConstMetric] panics without. *)
Definition labelsMatch (m : Metric) : Prop :=
  length (labelValues m) = length (variableLabels (desc m)).

End Metrics.

(** ** The CPU collector ([cpu_linux.go]) *)

Module CPU.
Import Float64 Metrics.

(** [procfs.CPUStat]: seconds spent in each mode, as read from [/proc/stat]. *)
Record CPUStat := {
  User : float64;
  Nice : float64;
  System : float64;
  Idle : float64;
  Iowait : float64;
  IRQ : float64;
  SoftIRQ : float64;
  Steal : float64;
  Guest : float64;
  GuestNice : float64
}.

#[global] Instance CPUStat_eq_dec : EqDecision CPUStat.
Proof. solve_decision. Defined.

(** [procfs.CPUStat{}] *)
Definition zeroStat : CPUStat :=
  {| User := zero; Nice := zero; System := zero; Idle := zero; Iowait := zero;
     IRQ := zero; SoftIRQ := zero; Steal := zero; Guest := zero;
     GuestNice := zero |}.

(** The fields of a [CPUStat], to read [s.F] and assign [s.F = v] by name. *)
Inductive counter :=
| user | nice | system | idle | iowait | irq | softirq | steal | guest | guestNice.

#[global] Instance counter_eq_dec : EqDecision counter.
Proof. solve_decision. Defined.

Definition get (f : counter) (s : CPUStat) : float64 :=
  match f with
  | user => User s | nice => Nice s | system => System s | idle => Idle s
  | iowait => Iowait s | irq => IRQ s | softirq => SoftIRQ s
  | steal => Steal s | guest => Guest s | guestNice => GuestNice s
  end.

Definition set (f : counter) (v : float64) (s : CPUStat) : CPUStat :=
  let 'Build_CPUStat us ni sy id io ir so st gu gn := s in
  match f with
  | user => Build_CPUStat v ni sy id io ir so st gu gn
  | nice => Build_CPUStat us v sy id io ir so st gu gn
  | system => Build_CPUStat us ni v id io ir so st gu gn
  | idle => Build_CPUStat us ni sy v io ir so st gu gn
  | iowait => Build_CPUStat us ni sy id v ir so st gu gn
  | irq => Build_CPUStat us ni sy id io v so st gu gn
  | softirq => Build_CPUStat us ni sy id io ir v st gu gn
  | steal => Build_CPUStat us ni sy id io ir so v gu gn
  | guest => Build_CPUStat us ni sy id io ir so st v gn
  | guestNice => Build_CPUStat us ni sy id io ir so st gu v
  end.

(** The collector; the logger, the mutex and the two regular expressions
    carry no data of the consolidation and are left out. *)
Record cpuCollector := {
  fs : string;
  cpu : Desc;
  cpuInfo : Desc;
  cpuFlagsInfo : Desc;
  cpuBugsInfo : Desc;
  cpuGuest : Desc;
  cpuCoreThrottle : Desc;
  cpuPackageThrottle : Desc;
  cpuStats : list CPUStat
}.

Definition with_cpuStats (c : cpuCollector) (stats : list CPUStat) : cpuCollector :=
  {| fs := fs c; cpu := cpu c; cpuInfo := cpuInfo c;
     cpuFlagsInfo := cpuFlagsInfo c; cpuBugsInfo := cpuBugsInfo c;
     cpuGuest := cpuGuest c; cpuCoreThrottle := cpuCoreThrottle c;
     cpuPackageThrottle := cpuPackageThrottle c; cpuStats := stats |}.

(** Idle jump back limit in seconds: the constant [3.0]. *)
Definition jumpBackSeconds : float64 := of_Z2 3 0.

(** [(c.cpuStats[i].Idle - n.Idle) >= jumpBackSeconds] *)
Definition jumpedBack (e n : CPUStat) : bool :=
  geb (sub (Idle e) (Idle n)) jumpBackSeconds.

(** [if jumpedBack { c.cpuStats[i] = procfs.CPUStat{} }]: the entry the
    blocks below compare the raw values with. *)
Definition resetOnJumpBack (e n : CPUStat) : CPUStat :=
  if jumpedBack e n then zeroStat else e.

(** One block
    [if n.F >= c.cpuStats[i].F { c.cpuStats[i].F = n.F } else { log }]
    on the entry [e = c.cpuStats[i]]; the debug message of the [else]
    branch changes nothing. *)
Definition ratchet (f : counter) (n e : CPUStat) : CPUStat :=
  if geb (get f n) (get f e) then set f (get f n) e else e.

(** The value a field has after its block: the raw one if it is [>=] the
    cached one, the cached one otherwise. *)
Definition ratchetValue (raw cached : float64) : float64 :=
  if geb raw cached then raw else cached.

(** Modelled from the spec: the end of the loop body of [updateCPUStats],
    which the source is cut off before (it stops after the [Iowait] block).
    The spec has every tracked field follow the same rule, adopting the raw
    value when it is [>=] the cached one and keeping the cached one
    otherwise; the fields left are [IRQ], [SoftIRQ], [Steal], [Guest] and
    [GuestNice], all of them cached and exposed by [Update]. *)
Definition updateEntryRest (n e : CPUStat) : CPUStat :=
  let e := ratchet irq n e in
  let e := ratchet softirq n e in
  let e := ratchet steal n e in
  let e := ratchet guest n e in
  ratchet guestNice n e.

(** The body of the loop [for i, n := range newStats] on the entry
    [e = c.cpuStats[i]], in the order of the source: the reset on an idle
    jump back, then the blocks of [Idle], [User], [Nice], [System] and
    [Iowait]. *)
Definition updateEntry (e n : CPUStat) : CPUStat :=
  let e := resetOnJumpBack e n in
  let e := ratchet idle n e in
  let e := ratchet user n e in
  let e := ratchet nice n e in
  let e := ratchet system n e in
  let e := ratchet iowait n e in
  updateEntryRest n e.

(** One iteration: [c.cpuStats[i]] is read and written in place; an index
    out of range panics ([None]). *)
Definition loopBody (i : nat) (n : CPUStat) (cache : list CPUStat)
  : option (list CPUStat) :=
  e ← cache !! i;
  Some (<[i := updateEntry e n]> cache).

Fixpoint rangeLoop (i : nat) (newStats : list CPUStat) (cache : list CPUStat)
  : option (list CPUStat) :=
  match newStats with
  | [] => Some cache
  | n :: rest => cache' ← loopBody i n cache; rangeLoop (S i) rest cache'
  end.

(** [make([]procfs.CPUStat, len(newStats))] when the lengths differ. *)
Definition resetCache (cache newStats : list CPUStat) : list CPUStat :=
  if bool_decide (length cache ≠ length newStats)
  then replicate (length newStats) zeroStat
  else cache.

(** [updateCPUStats], on the cache [c.cpuStats]. *)
Definition updateCPUStats (cache newStats : list CPUStat)
  : option (list CPUStat) :=
  rangeLoop 0 newStats (resetCache cache newStats).

(** Successive scrapes: [updateCPUStats] with each raw snapshot in turn. *)
Fixpoint scrapes (cache : list CPUStat) (snapshots : list (list CPUStat))
  : option (list CPUStat) :=
  match snapshots with
  | [] => Some cache
  | newStats :: later =>
      cache' ← updateCPUStats cache newStats; scrapes cache' later
  end.

(** No field of the cache holds a NaN. *)
Definition noNaN (cache : list CPUStat) : Prop :=
  ∀ i e f, cache !! i = Some e → is_nan (get f e) = false.

(** A snapshot [b] follows a snapshot [a] without regression: the same
    number of CPUs, and no field of any CPU below its value in [a]. *)
Definition follows (a b : list CPUStat) : Prop :=
  length a = length b ∧
  ∀ i x y f, a !! i = Some x → b !! i = Some y → geb (get f y) (get f x) = true.

(** A sequence of raw snapshots with a constant number of CPUs and
    non-decreasing fields. *)
Definition wellBehaved (snapshots : list (list CPUStat)) : Prop :=
  ∀ k a b, snapshots !! k = Some a → snapshots !! S k = Some b → follows a b.

(** Every raw value is a number [>= 0]. *)
Definition nonNegative (snapshots : list (list CPUStat)) : Prop :=
  ∀ k a i x f,
    snapshots !! k = Some a → a !! i = Some x → geb (get f x) zero = true.

(** Every field of the cache is a number [>= 0]. *)
Definition nonNegativeCache (cache : list CPUStat) : Prop :=
  ∀ i e f, cache !! i = Some e → geb (get f e) zero = true.

(** The body of the loop [for cpuID, cpuStat := range c.cpuStats] of
    [Update]. *)
Definition emitCPU (enableCPUGuest : bool) (c : cpuCollector)
    (cpuID : nat) (cpuStat : CPUStat) : Emit unit :=
  let cpuNum := Itoa cpuID in
  send (MustNewConstMetric (cpu c) CounterValue (User cpuStat) [cpuNum; "user"]) ;;
  send (MustNewConstMetric (cpu c) CounterValue (Nice cpuStat) [cpuNum; "nice"]) ;;
  send (MustNewConstMetric (cpu c) CounterValue (System cpuStat) [cpuNum; "system"]) ;;
  send (MustNewConstMetric (cpu c) CounterValue (Idle cpuStat) [cpuNum; "idle"]) ;;
  send (MustNewConstMetric (cpu c) CounterValue (Iowait cpuStat) [cpuNum; "iowait"]) ;;
  send (MustNewConstMetric (cpu c) CounterValue (IRQ cpuStat) [cpuNum; "irq"]) ;;
  send (MustNewConstMetric (cpu c) CounterValue (SoftIRQ cpuStat) [cpuNum; "softirq"]) ;;
  send (MustNewConstMetric (cpu c) CounterValue (Steal cpuStat) [cpuNum; "steal"]) ;;
  if enableCPUGuest then
    send (MustNewConstMetric (cpuGuest c) CounterValue (Guest cpuStat) [cpuNum; "user"]) ;;
    send (MustNewConstMetric (cpuGuest c) CounterValue (GuestNice cpuStat) [cpuNum; "nice"])
  else mret tt.

(** [Update], from the call [c.updateCPUStats(stats.CPU)] on (the source
    has lost the lines before it, which read [stats]): the cache is
    consolidated, then the cached values are sent. The result is the
    collector with its new cache, what was sent and the error returned;
    [None] is a panic. *)
Definition Update (enableCPUGuest : bool) (c : cpuCollector)
    (statsCPU : list CPUStat) : option (cpuCollector * Emit (option error)) :=
  cache' ← updateCPUStats (cpuStats c) statsCPU;
  let c' := with_cpuStats c cache' in
  Some (c', forRange (emitCPU enableCPUGuest c') 0 (cpuStats c') ;; mret None).

(** The two metric families of the cached values, as the spec describes
    them: for each CPU of the cache, in order, the eight modes of the CPU
    seconds, and the guest seconds under the modes "user" and "nice". *)
Definition secondsFamily (c : cpuCollector) : list Metric :=
  concat (imap (λ cpuID cpuStat,
    [ MustNewConstMetric (cpu c) CounterValue (User cpuStat) [Itoa cpuID; "user"];
      MustNewConstMetric (cpu c) CounterValue (Nice cpuStat) [Itoa cpuID; "nice"];
      MustNewConstMetric (cpu c) CounterValue (System cpuStat) [Itoa cpuID; "system"];
      MustNewConstMetric (cpu c) CounterValue (Idle cpuStat) [Itoa cpuID; "idle"];
      MustNewConstMetric (cpu c) CounterValue (Iowait cpuStat) [Itoa cpuID; "iowait"];
      MustNewConstMetric (cpu c) CounterValue (IRQ cpuStat) [Itoa cpuID; "irq"];
      MustNewConstMetric (cpu c) CounterValue (SoftIRQ cpuStat) [Itoa cpuID; "softirq"];
      MustNewConstMetric (cpu c) CounterValue (Steal cpuStat) [Itoa cpuID; "steal"] ])
    (cpuStats c)).

Definition guestFamily (c : cpuCollector) : list Metric :=
  concat (imap (λ cpuID cpuStat,
    [ MustNewConstMetric (cpuGuest c) CounterValue (Guest cpuStat) [Itoa cpuID; "user"];
      MustNewConstMetric (cpuGuest c) CounterValue (GuestNice cpuStat) [Itoa cpuID; "nice"] ])
    (cpuStats c)).

(** *** The factory

    Declared outside the files at hand, and taken as given: the flag
    [--path.procfs], the constructor [procfs.NewFS] of the reader, the
    client library's [BuildFQName], the name space and the subsystem name,
    the descriptor [nodeCPUSecondsDesc], and the end of the constructor: the
    source is cut off inside the literal, in the descriptor of
    [cpuPackageThrottle], so its label names and what is done with the
    collector once built ([finish]) are parameters. *)
Section Factory.
Variable procPath : string.
Variable NewFS : string → result string.
Variable BuildFQName : string → string → string → string.
Variables namespace cpuCollectorSubsystem : string.
Variable nodeCPUSecondsDesc : Desc.
Variable packageThrottleLabels : list string.
Variable finish : cpuCollector → option cpuCollector * option error.

(** [NewCPUCollector]: the pair [(Collector, error)] it returns. *)
Definition NewCPUCollector : option cpuCollector * option error :=
  match NewFS procPath with
  | Err err => (None, Some (Errorf "failed to open procfs: %w" err))
  | Ok fs =>
      finish
        {| fs := fs;
           cpu := nodeCPUSecondsDesc;
           cpuInfo := NewDesc
             (BuildFQName namespace cpuCollectorSubsystem "info")
             "CPU information from /proc/cpuinfo."
             ["package"; "core"; "cpu"; "vendor"; "family"; "model";
              "model_name"; "microcode"; "stepping"; "cachesize"];
           cpuFlagsInfo := NewDesc
             (BuildFQName namespace cpuCollectorSubsystem "flag_info")
             "The `flags` field of CPU information from /proc/cpuinfo taken from the first core."
             ["flag"];
           cpuBugsInfo := NewDesc
             (BuildFQName namespace cpuCollectorSubsystem "bug_info")
             "The `bugs` field of CPU information from /proc/cpuinfo taken from the first core."
             ["bug"];
           cpuGuest := NewDesc
             (BuildFQName namespace cpuCollectorSubsystem "guest_seconds_total")
             "Seconds the CPUs spent in guests (VMs) for each mode."
             ["cpu"; "mode"];
           cpuCoreThrottle := NewDesc
             (BuildFQName namespace cpuCollectorSubsystem "core_throttles_total")
             "Number of times this CPU core has been throttled."
             ["package"; "core"];
           cpuPackageThrottle := NewDesc
             (BuildFQName namespace cpuCollectorSubsystem "package_throttles_total")
             "Number of times this CPU package has been throttled."
             packageThrottleLabels;
           cpuStats := [] |}
  end.

End Factory.

End CPU.

(** ** The buddyinfo collector ([buddyinfo.go]) *)

Module Buddyinfo.
Import Float64 Metrics.

Definition buddyInfoSubsystem : string := "buddyinfo".

(** [procfs.BuddyInfo]: the free blocks of a zone of a node, by size. *)
Record BuddyInfo := {
  Node : string;
  Zone : string;
  Sizes : list float64
}.

Record buddyinfoCollector := {
  fs : string;
  desc : Desc
}.

Section Collector.
Variable procPath : string.
Variable NewFS : string → result string.
Variable BuildFQName : string → string → string → string.
Variable namespace : string.
(** [fs.BuddyInfo()]: what the reader returns at this scrape. *)
Variable readBuddyInfo : string → result (list BuddyInfo).

(** [NewBuddyinfoCollector] *)
Definition NewBuddyinfoCollector : option buddyinfoCollector * option error :=
  let desc := NewDesc
    (BuildFQName namespace buddyInfoSubsystem "blocks")
    "Count of free blocks according to size."
    ["node"; "zone"; "size"] in
  match NewFS procPath with
  | Err err => (None, Some (Errorf "failed to open procfs: %w" err))
  | Ok fs => (Some {| fs := fs; desc := desc |}, None)
  end.

(** [Update] *)
Definition Update (c : buddyinfoCollector) : Emit (option error) :=
  match readBuddyInfo (fs c) with
  | Err err => mret (Some (Errorf "couldn't get buddyinfo: %w" err))
  | Ok buddyInfo =>
      forRange (λ _ entry,
        forRange (λ size value,
          send (MustNewConstMetric (desc c) GaugeValue value
                  [Node entry; Zone entry; Itoa size]))
          0 (Sizes entry))
        0 buddyInfo ;;
      mret None
  end.

End Collector.

End Buddyinfo.

(** ** The bcache collector ([bcache_linux.go]) *)

Module Bcache.
Import Float64 Metrics.

Record bcacheCollector := {
  fs : string
}.

(** The type [bcache.Stats] and the two readers are the library's;
    [updateBcacheStats] is cut in the middle in the source and is taken as
    given, as what it sends for one [*bcache.Stats]. *)
Section Collector.
Variable sysPath : string.
Variable NewFS : string → result string.
Variable Stats : Type.
Variable readStats : string → result (list Stats).
Variable readStatsWithoutPriority : string → result (list Stats).
Variable updateBcacheStats : bcacheCollector → Stats → Emit unit.

(** [NewBcacheCollector] *)
Definition NewBcacheCollector : option bcacheCollector * option error :=
  match NewFS sysPath with
  | Err err => (None, Some (Errorf "failed to open sysfs: %w" err))
  | Ok fs => (Some {| fs := fs |}, None)
  end.

(** [Update], under the flag [--collector.bcache.priorityStats]. *)
Definition Update (priorityStats : bool) (c : bcacheCollector)
  : Emit (option error) :=
  let read :=
    if priorityStats then readStats (fs c)
    else readStatsWithoutPriority (fs c) in
  match read with
  | Err err => mret (Some (Errorf "failed to retrieve bcache stats: %w" err))
  | Ok stats =>
      forRange (λ _ s, updateBcacheStats c s) 0 stats ;;
      mret None
  end.

End Collector.

(** [bcacheMetric] *)
Record bcacheMetric := {
  name : string;
  desc : string;
  value : float64;
  metricType : ValueType;
  extraLabel : list string;
  extraLabelValue : string
}.

(** The last loop of [updateBcacheStats], [for _, m := range allMetrics].
    What it reads was set in the lines the source has lost and is taken as
    given: the constant [subsystem], the label names [devLabel] and the
    metrics gathered in [allMetrics]; [namespace] and [BuildFQName] are
    declared outside the file. [sName] is [s.Name]. *)
Section UpdateBcacheStats.
Variable BuildFQName : string → string → string → string.
Variables namespace subsystem : string.
Variable devLabel : list string.

Definition emitMetric (sName : string) (m : bcacheMetric) : Emit unit :=
  let labels := devLabel ++ extraLabel m in
  let desc := NewDesc (BuildFQName namespace subsystem (name m)) (desc m) labels in
  let labelValues := [sName] in
  let labelValues :=
    if decide (extraLabelValue m ≠ "")
    then labelValues ++ [extraLabelValue m]
    else labelValues in
  send (MustNewConstMetric desc (metricType m) (value m) labelValues).

Definition emitMetrics (sName : string) (allMetrics : list bcacheMetric)
  : Emit unit :=
  forRange (λ _ m, emitMetric sName m) 0 allMetrics.

End UpdateBcacheStats.

End Bcache.

(** ** The cpufreq collector ([cpufreq_linux.go]) *)

Module CPUFreq.
Import Float64 Metrics.

(** [sysfs.SystemCPUCpufreqStats], the fields read here; a [*uint64] is
    [nil] or points to a number below [2^64]. *)
Record SystemCPUCpufreqStats := {
  Name : string;
  CpuinfoCurrentFrequency : option N;
  CpuinfoMinimumFrequency : option N;
  CpuinfoMaximumFrequency : option N;
  ScalingCurrentFrequency : option N;
  ScalingMinimumFrequency : option N;
  ScalingMaximumFrequency : option N
}.

Record cpuFreqCollector := {
  fs : string;
  cpuFreq : Desc;
  cpuFreqMin : Desc;
  cpuFreqMax : Desc;
  scalingFreq : Desc;
  scalingFreqMin : Desc;
  scalingFreqMax : Desc
}.

(** The constant [1000.0]. *)
Definition thousand : float64 := of_Z2 1000 0.

(** The value of a frequency sample: the number pointed to, converted to
    [float64] and multiplied by [1000.0] (kHz to Hz). *)
Definition hertz (kHz : N) : float64 := mul (of_uint64 kHz) thousand.

(** One branch [if p != nil { ch <- MustNewConstMetric(d, GaugeValue, v,
    stats.Name) }], with [v] the value in hertz. *)
Definition sendFreq (d : Desc) (p : option N) (name : string) : Emit unit :=
  match p with
  | Some kHz => send (MustNewConstMetric d GaugeValue (hertz kHz) [name])
  | None => mret tt
  end.

(** Modelled from the spec: the end of the loop body of [Update], which the
    source is cut off before (it stops at [c.cpuFreqMax,]): the value and
    the label of the maximum-frequency sample and the samples of the three
    scaling frequencies. The spec has this collector map the fields of the
    record onto samples and nothing else; the branches follow the two whole
    ones, the comment at the head of the loop (kHz, multiplied by 1000) and
    the descriptors of the collector. *)
Definition emitFreqRest (c : cpuFreqCollector) (stats : SystemCPUCpufreqStats)
  : Emit unit :=
  sendFreq (cpuFreqMax c) (CpuinfoMaximumFrequency stats) (Name stats) ;;
  sendFreq (scalingFreq c) (ScalingCurrentFrequency stats) (Name stats) ;;
  sendFreq (scalingFreqMin c) (ScalingMinimumFrequency stats) (Name stats) ;;
  sendFreq (scalingFreqMax c) (ScalingMaximumFrequency stats) (Name stats).

(** The body of the loop [for _, stats := range cpuFreqs]. *)
Definition emitFreq (c : cpuFreqCollector) (stats : SystemCPUCpufreqStats)
  : Emit unit :=
  sendFreq (cpuFreq c) (CpuinfoCurrentFrequency stats) (Name stats) ;;
  sendFreq (cpuFreqMin c) (CpuinfoMinimumFrequency stats) (Name stats) ;;
  emitFreqRest c stats.

(** The fields of a record with the descriptor each is sent under. *)
Definition frequencies (c : cpuFreqCollector) (stats : SystemCPUCpufreqStats)
  : list (Desc * option N) :=
  [ (cpuFreq c, CpuinfoCurrentFrequency stats);
    (cpuFreqMin c, CpuinfoMinimumFrequency stats);
    (cpuFreqMax c, CpuinfoMaximumFrequency stats);
    (scalingFreq c, ScalingCurrentFrequency stats);
    (scalingFreqMin c, ScalingMinimumFrequency stats);
    (scalingFreqMax c, ScalingMaximumFrequency stats) ].

(** The samples expected of one record: one for each field that is
    present, in the order of [frequencies], with the number pointed to in
    hertz. *)
Definition frequencySamples (c : cpuFreqCollector) (stats : SystemCPUCpufreqStats)
  : list Metric :=
  omap (λ dp : Desc * option N,
          kHz ← dp.2;
          Some (MustNewConstMetric dp.1 GaugeValue
                  (mul (of_uint64 kHz) thousand) [Name stats]))
       (frequencies c stats).

Section Collector.
(** [fs.SystemCpufreq()]: what the reader returns at this scrape. *)
Variable readSystemCpufreq : string → result (list SystemCPUCpufreqStats).

(** [Update] *)
Definition Update (c : cpuFreqCollector) : Emit (option error) :=
  match readSystemCpufreq (fs c) with
  | Err err => mret (Some err)
  | Ok cpuFreqs =>
      forRange (λ _ stats, emitFreq c stats) 0 cpuFreqs ;;
      mret None
  end.

End Collector.

(** [NewCPUFreqCollector]; the flag [--path.sysfs], [sysfs.NewFS],
    [BuildFQName], the name space and the subsystem name are declared
    outside the file. *)
Section Factory.
Variable sysPath : string.
Variable NewFS : string → result string.
Variable BuildFQName : string → string → string → string.
Variables namespace cpuCollectorSubsystem : string.

Definition NewCPUFreqCollector : option cpuFreqCollector * option error :=
  match NewFS sysPath with
  | Err err => (None, Some (Errorf "failed to open sysfs: %w" err))
  | Ok fs =>
      (Some
         {| fs := fs;
            cpuFreq := NewDesc
              (BuildFQName namespace cpuCollectorSubsystem "frequency_hertz")
              "Current cpu thread frequency in hertz."
              ["cpu"];
            cpuFreqMin := NewDesc
              (BuildFQName namespace cpuCollectorSubsystem "frequency_min_hertz")
              "Minimum cpu thread frequency in hertz."
              ["cpu"];
            cpuFreqMax := NewDesc
              (BuildFQName namespace cpuCollectorSubsystem "frequency_max_hertz")
              "Maximum cpu thread frequency in hertz."
              ["cpu"];
            scalingFreq := NewDesc
              (BuildFQName namespace cpuCollectorSubsystem "scaling_frequency_hertz")
              "Current scaled CPU thread frequency in hertz."
              ["cpu"];
            scalingFreqMin := NewDesc
              (BuildFQName namespace cpuCollectorSubsystem "scaling_frequency_min_hertz")
              "Minimum scaled CPU thread frequency in hertz."
              ["cpu"];
            scalingFreqMax := NewDesc
              (BuildFQName namespace cpuCollectorSubsystem "scaling_frequency_max_hertz")
              "Maximum scaled CPU thread frequency in hertz."
              ["cpu"] |},
       None)
  end.

End Factory.

End CPUFreq.

(** ** Concrete readings *)

Module Examples.
Import Float64 Metrics CPU.

Definition f100 : float64 := of_Z2 100 0.
Definition f96_5 : float64 := of_Z2 193 (-1).
Definition f50 : float64 := of_Z2 50 0.
Definition f49 : float64 := of_Z2 49 0.
Definition f10 : float64 := of_Z2 10 0.
Definition minus1 : float64 := SFopp (of_Z2 1 0).

(** A reading with the given user and idle seconds, zero elsewhere. *)
Definition reading (us id : float64) : CPUStat :=
  set user us (set idle id zeroStat).

Definition seconds : Desc :=
  NewDesc "node_cpu_seconds_total" "Seconds the CPUs spent in each mode."
    ["cpu"; "mode"].
Definition guestSeconds : Desc :=
  NewDesc "node_cpu_guest_seconds_total"
    "Seconds the CPUs spent in guests (VMs) for each mode." ["cpu"; "mode"].

Definition collector (cache : list CPUStat) : cpuCollector :=
  {| CPU.fs := "/proc"; cpu := seconds; cpuInfo := seconds;
     cpuFlagsInfo := seconds; cpuBugsInfo := seconds;
     cpuGuest := guestSeconds; cpuCoreThrottle := seconds;
     cpuPackageThrottle := seconds; cpuStats := cache |}.

(** A record with the current frequency only, at 2.4 GHz. *)
Definition freqRecord : CPUFreq.SystemCPUCpufreqStats :=
  {| CPUFreq.Name := "cpu0";
     CPUFreq.CpuinfoCurrentFrequency := Some 2400000%N;
     CPUFreq.CpuinfoMinimumFrequency := None;
     CPUFreq.CpuinfoMaximumFrequency := None;
     CPUFreq.ScalingCurrentFrequency := None;
     CPUFreq.ScalingMinimumFrequency := None;
     CPUFreq.ScalingMaximumFrequency := None |}.

Definition freqReader (fs : string)
  : result (list CPUFreq.SystemCPUCpufreqStats) :=
  Ok [freqRecord].

Definition freqCollector : CPUFreq.cpuFreqCollector :=
  {| CPUFreq.fs := "/sys";
     CPUFreq.cpuFreq := seconds;
     CPUFreq.cpuFreqMin := seconds;
     CPUFreq.cpuFreqMax := seconds;
     CPUFreq.scalingFreq := seconds;
     CPUFreq.scalingFreqMin := seconds;
     CPUFreq.scalingFreqMax := seconds |}.

(** A reading of [/proc/buddyinfo]: two zones of node 0. *)
Definition buddyReading : list Buddyinfo.BuddyInfo :=
  [ {| Buddyinfo.Node := "0"; Buddyinfo.Zone := "DMA";
       Buddyinfo.Sizes := [f10; f49; zero] |};
    {| Buddyinfo.Node := "0"; Buddyinfo.Zone := "Normal";
       Buddyinfo.Sizes := [f100; f50] |} ].

Definition buddyReader (fs : string) : result (list Buddyinfo.BuddyInfo) :=
  Ok buddyReading.

Definition buddyCollector : Buddyinfo.buddyinfoCollector :=
  {| Buddyinfo.fs := "/proc";
     Buddyinfo.desc :=
       NewDesc "node_buddyinfo_blocks"
         "Count of free blocks according to size." ["node"; "zone"; "size"] |}.

End Examples.

(** * Properties *)

(** ** Order and subtraction on float64 *)

Section Float64Facts.
Import Float64.

Lemma compare_refl (x : float64) :
  is_nan x = false → SFcompare x x = Some Eq.
Proof.
  destruct x as [s|s| |s m e]; simpl; try done; intros _.
  - by destruct s.
  - rewrite Z.compare_refl.
    change (Pos.compare_cont Eq m m) with (Pos.compare m m).
    rewrite Pos.compare_refl. by destruct s.
Qed.

Lemma compare_antisym (x y : float64) :
  SFcompare y x = option_map CompOpp (SFcompare x y).
Proof.
  destruct x as [sx|sx| |sx mx ex], y as [sy|sy| |sy my ey]; simpl;
    try done; try (by destruct sx); try (by destruct sy);
    try (by destruct sx, sy).
  change (Pos.compare_cont Eq my mx) with (Pos.compare my mx).
  change (Pos.compare_cont Eq mx my) with (Pos.compare mx my).
  rewrite (Z.compare_antisym ex ey), (Pos.compare_antisym mx my).
  destruct sx, sy; simpl; try done;
    destruct (ex ?= ey); simpl; try done.
Qed.

Lemma geb_leb (x y : float64) : geb x y = leb y x.
Proof.
  unfold geb, leb, SFleb. rewrite (compare_antisym x y).
  by destruct (SFcompare x y) as [[]|].
Qed.

Lemma geb_refl (x : float64) : is_nan x = false → geb x x = true.
Proof. intros H. unfold geb. by rewrite compare_refl. Qed.

Lemma geb_not_nan_l (x y : float64) : geb x y = true → is_nan x = false.
Proof. by destruct x, y. Qed.

Lemma geb_not_nan_r (x y : float64) : geb x y = true → is_nan y = false.
Proof. by destruct x, y. Qed.

Lemma ltb_irrefl (x : float64) : ltb x x = false.
Proof.
  unfold ltb, SFltb. destruct (is_nan x) eqn:E.
  - by destruct x.
  - by rewrite compare_refl.
Qed.

Lemma geb_ltb (x y : float64) : geb x y = true → ltb x y = false.
Proof. unfold geb, ltb, SFltb. by destruct (SFcompare x y) as [[]|]. Qed.

Lemma ltb_geb (x y : float64) : ltb x y = true → geb x y = false.
Proof. unfold geb, ltb, SFltb. by destruct (SFcompare x y) as [[]|]. Qed.

Lemma leb_refl (x : float64) : is_nan x = false → leb x x = true.
Proof. intros H. rewrite <-geb_leb. by apply geb_refl. Qed.

(** [x - x] is [+0] or NaN, whatever [x] is. *)
Lemma sub_diag (x : float64) :
  sub x x = zero ∨ sub x x = S754_nan.
Proof.
  destruct x as [s|s| |s m e]; simpl.
  - left. by destruct s.
  - right. by destruct s.
  - by right.
  - left. unfold sub, SFsub. by rewrite Z.sub_diag.
Qed.

End Float64Facts.

(** ** The consolidation of one entry *)

Section EntryFacts.
Import Float64 Metrics CPU.

Lemma get_set_eq (f : counter) (v : float64) (s : CPUStat) :
  get f (set f v s) = v.
Proof. by destruct f, s. Qed.

Lemma get_set_ne (f g : counter) (v : float64) (s : CPUStat) :
  f ≠ g → get g (set f v s) = get g s.
Proof. by destruct f, g, s. Qed.

Lemma CPUStat_eq (a b : CPUStat) : (∀ f, get f a = get f b) → a = b.
Proof.
  intros H. destruct a, b.
  pose proof (H user); pose proof (H nice); pose proof (H system);
  pose proof (H idle); pose proof (H iowait); pose proof (H irq);
  pose proof (H softirq); pose proof (H steal); pose proof (H guest);
  pose proof (H guestNice). simpl in *. congruence.
Qed.

Lemma get_ratchet_eq (f : counter) (n e : CPUStat) :
  get f (ratchet f n e) = ratchetValue (get f n) (get f e).
Proof.
  unfold ratchet, ratchetValue. destruct (geb _ _); [apply get_set_eq | done].
Qed.

Lemma get_ratchet_ne (f g : counter) (n e : CPUStat) :
  f ≠ g → get g (ratchet f n e) = get g e.
Proof.
  intros Hne. unfold ratchet. destruct (geb _ _); [by apply get_set_ne | done].
Qed.

(** Every field of the entry goes through its own block, against the entry
    left by the reset check. *)
Lemma get_updateEntry (f : counter) (e n : CPUStat) :
  get f (updateEntry e n)
  = ratchetValue (get f n) (get f (resetOnJumpBack e n)).
Proof.
  unfold updateEntry, updateEntryRest.
  generalize (resetOnJumpBack e n). intros b.
  destruct f;
    repeat first
      [ rewrite get_ratchet_eq
      | rewrite get_ratchet_ne by discriminate ];
    reflexivity.
Qed.

Lemma ratchetValue_idemp (raw cached : float64) :
  ratchetValue raw (ratchetValue raw cached) = ratchetValue raw cached.
Proof.
  unfold ratchetValue. destruct (geb raw cached) eqn:E.
  - rewrite geb_refl; [done | by eapply geb_not_nan_l].
  - by rewrite E.
Qed.

Lemma ratchetValue_ge (raw cached : float64) :
  geb raw cached = true → ratchetValue raw cached = raw.
Proof. unfold ratchetValue. by intros ->. Qed.

Lemma ratchetValue_lt (raw cached : float64) :
  ltb raw cached = true → ratchetValue raw cached = cached.
Proof. intros H. unfold ratchetValue. by rewrite (ltb_geb _ _ H). Qed.

Lemma ratchetValue_not_nan (raw cached : float64) :
  is_nan cached = false → is_nan (ratchetValue raw cached) = false.
Proof.
  intros H. unfold ratchetValue. destruct (geb raw cached) eqn:E; [|done].
  by eapply geb_not_nan_l.
Qed.

Lemma ratchetValue_leb (raw cached : float64) :
  is_nan cached = false → leb cached (ratchetValue raw cached) = true.
Proof.
  intros H. unfold ratchetValue. destruct (geb raw cached) eqn:E.
  - by rewrite <-geb_leb.
  - by apply leb_refl.
Qed.

Lemma ratchetValue_not_ltb (raw cached : float64) :
  ltb (ratchetValue raw cached) cached = false.
Proof.
  unfold ratchetValue. destruct (geb raw cached) eqn:E.
  - by apply geb_ltb.
  - apply ltb_irrefl.
Qed.

(** The limit is the binary64 number [3 = 6755399441055744 * 2^-51], and the
    readings of the examples are binary64 numbers too. *)
Lemma jumpBackSeconds_value :
  jumpBackSeconds = S754_finite false 6755399441055744 (-51) ∧
  valid jumpBackSeconds = true.
Proof. split; reflexivity. Qed.

Lemma example_readings_valid :
  Forall (λ x, valid x = true)
    [Examples.f100; Examples.f96_5; Examples.f50; Examples.f49;
     Examples.f10; Examples.minus1].
Proof. repeat constructor. Qed.

Lemma jumpedBack_diag_idle (e n : CPUStat) :
  Idle e = Idle n → jumpedBack e n = false.
Proof.
  intros H. unfold jumpedBack. rewrite H.
  by destruct (sub_diag (Idle n)) as [-> | ->].
Qed.

Lemma resetOnJumpBack_zero (n : CPUStat) : resetOnJumpBack zeroStat n = zeroStat.
Proof. unfold resetOnJumpBack. by destruct (jumpedBack _ _). Qed.

(** After a reset the entry is the one a zero entry would give. *)
Lemma updateEntry_jumpedBack (e n : CPUStat) :
  jumpedBack e n = true → updateEntry e n = updateEntry zeroStat n.
Proof.
  intros H. apply CPUStat_eq. intros f. rewrite !get_updateEntry.
  rewrite resetOnJumpBack_zero. unfold resetOnJumpBack. by rewrite H.
Qed.

Lemma updateEntry_idemp (e n : CPUStat) :
  updateEntry (updateEntry e n) n = updateEntry e n.
Proof.
  apply CPUStat_eq. intros f. rewrite (get_updateEntry f (updateEntry e n)).
  destruct (jumpedBack (updateEntry e n) n) eqn:J2.
  - (* the second call resets: the first left a zero-based entry *)
    destruct (jumpedBack e n) eqn:J1.
    + unfold resetOnJumpBack at 1. rewrite J2, get_updateEntry.
      unfold resetOnJumpBack. by rewrite J1.
    + exfalso. revert J2. unfold jumpedBack at 1.
      pose proof (get_updateEntry idle e n) as Hi. simpl in Hi. rewrite Hi.
      unfold resetOnJumpBack. rewrite J1. unfold ratchetValue.
      destruct (geb (Idle n) (Idle e)) eqn:G.
      * destruct (sub_diag (Idle n)) as [-> | ->]; done.
      * unfold jumpedBack in J1. by rewrite J1.
  - unfold resetOnJumpBack at 1. rewrite J2.
    rewrite get_updateEntry. apply ratchetValue_idemp.
Qed.

End EntryFacts.

(** ** The loop over the raw snapshot *)

Section LoopFacts.
Import Float64 Metrics CPU.

Lemma rangeLoop_zip (newStats : list CPUStat) :
  ∀ (pre mid post : list CPUStat),
    length mid = length newStats →
    rangeLoop (length pre) newStats (pre ++ mid ++ post)
    = Some (pre ++ zip_with updateEntry mid newStats ++ post).
Proof.
  induction newStats as [|n rest IH]; intros pre mid post Hlen.
  - by destruct mid.
  - destruct mid as [|e mid]; [done|]. simpl in Hlen.
    simpl. unfold loopBody.
    rewrite list_lookup_middle by done. simpl.
    rewrite insert_app_r_alt by done.
    replace (length pre - length pre)%nat with 0%nat by lia. simpl.
    specialize (IH (pre ++ [updateEntry e n]) mid post).
    rewrite length_app in IH. simpl in IH.
    replace (length pre + 1)%nat with (S (length pre)) in IH by lia.
    rewrite <-!app_assoc in IH. simpl in IH. apply IH. lia.
Qed.

Lemma length_resetCache (cache newStats : list CPUStat) :
  length (resetCache cache newStats) = length newStats.
Proof.
  unfold resetCache. case_bool_decide as H.
  - by rewrite length_replicate.
  - destruct (decide (length cache = length newStats)); [done | contradiction].
Qed.

Lemma resetCache_same_length (cache newStats : list CPUStat) :
  length cache = length newStats → resetCache cache newStats = cache.
Proof. intros H. unfold resetCache. by rewrite bool_decide_eq_false_2 by auto. Qed.

Lemma resetCache_other_length (cache newStats : list CPUStat) :
  length cache ≠ length newStats →
  resetCache cache newStats = replicate (length newStats) zeroStat.
Proof. intros H. unfold resetCache. by rewrite bool_decide_eq_true_2. Qed.

(** The call never panics, and every entry is consolidated with the raw
    entry of its own index. *)
Lemma updateCPUStats_Some (cache newStats : list CPUStat) :
  updateCPUStats cache newStats
  = Some (zip_with updateEntry (resetCache cache newStats) newStats).
Proof.
  unfold updateCPUStats.
  pose proof (rangeLoop_zip newStats [] (resetCache cache newStats) []
                (length_resetCache _ _)) as H.
  simpl in H. by rewrite !app_nil_r in H.
Qed.

Lemma length_updateCPUStats (cache newStats cache' : list CPUStat) :
  updateCPUStats cache newStats = Some cache' → length cache' = length newStats.
Proof.
  rewrite updateCPUStats_Some. intros [= <-].
  rewrite length_zip_with, length_resetCache. lia.
Qed.

Lemma lookup_updateCPUStats (cache newStats cache' : list CPUStat) (i : nat) :
  updateCPUStats cache newStats = Some cache' →
  cache' !! i
  = (e ← resetCache cache newStats !! i; n ← newStats !! i;
     Some (updateEntry e n)).
Proof.
  rewrite updateCPUStats_Some. intros [= <-]. apply lookup_zip_with.
Qed.

Lemma zip_with_replicate_updateEntry (z : CPUStat) (newStats : list CPUStat) :
  zip_with updateEntry (replicate (length newStats) z) newStats
  = updateEntry z <$> newStats.
Proof. induction newStats as [|n rest IH]; [done|]. simpl. by f_equal. Qed.

Lemma scrapes_Some (snapshots : list (list CPUStat)) :
  ∀ cache, ∃ cache', scrapes cache snapshots = Some cache'.
Proof.
  induction snapshots as [|s later IH]; intros cache; simpl; [by eexists|].
  rewrite updateCPUStats_Some. simpl. apply IH.
Qed.

Lemma scrapes_snoc (snapshots : list (list CPUStat)) (last : list CPUStat) :
  ∀ cache,
    scrapes cache (snapshots ++ [last])
    = (cache' ← scrapes cache snapshots; updateCPUStats cache' last).
Proof.
  induction snapshots as [|s later IH]; intros cache; simpl.
  - by destruct (updateCPUStats cache last).
  - destruct (updateCPUStats cache s); simpl; [apply IH | done].
Qed.

(** No cached value is ever NaN: the cache starts empty, a reset writes
    zeros, and a raw value is adopted only if it compares [>=]. *)
Lemma noNaN_updateEntry (e n : CPUStat) :
  (∀ f, is_nan (get f e) = false) →
  ∀ f, is_nan (get f (updateEntry e n)) = false.
Proof.
  intros He f. rewrite get_updateEntry. apply ratchetValue_not_nan.
  unfold resetOnJumpBack. destruct (jumpedBack e n); [by destruct f | apply He].
Qed.

Lemma noNaN_updateCPUStats (cache newStats cache' : list CPUStat) :
  noNaN cache → updateCPUStats cache newStats = Some cache' → noNaN cache'.
Proof.
  intros Hc Hu i e' f Hi.
  rewrite (lookup_updateCPUStats _ _ _ i Hu) in Hi.
  destruct (resetCache cache newStats !! i) as [e|] eqn:He; [|done].
  destruct (newStats !! i) as [n|] eqn:Hn; [|done].
  simpl in Hi. injection Hi as <-. apply noNaN_updateEntry.
  intros g. revert He. unfold resetCache. case_bool_decide.
  - intros [-> _]%lookup_replicate. by destruct g.
  - intros He. by eapply Hc.
Qed.

Lemma noNaN_scrapes (snapshots : list (list CPUStat)) :
  ∀ cache cache',
    noNaN cache → scrapes cache snapshots = Some cache' → noNaN cache'.
Proof.
  induction snapshots as [|s later IH]; intros cache cache' Hc; simpl.
  - by intros [= <-].
  - destruct (updateCPUStats cache s) as [c1|] eqn:E; [|done]. simpl.
    apply IH. by eapply noNaN_updateCPUStats.
Qed.

End LoopFacts.

(** ** What a computation sends *)

Section EmitFacts.
Import Float64 Metrics.

Lemma sent_bind {A B : Type} (m : Emit A) (k : A → Emit B) :
  sent (m ≫= k) = sent m ++ sent (k (returned m)).
Proof.
  destruct m as [o a]. unfold sent, returned, mbind, Emit_bind. simpl.
  by destruct (k a).
Qed.

Lemma returned_bind {A B : Type} (m : Emit A) (k : A → Emit B) :
  returned (m ≫= k) = returned (k (returned m)).
Proof.
  destruct m as [o a]. unfold sent, returned, mbind, Emit_bind. simpl.
  by destruct (k a).
Qed.

Lemma sent_ret {A : Type} (a : A) : sent (mret a : Emit A) = [].
Proof. reflexivity. Qed.

Lemma sent_send (m : Metric) : sent (send m) = [m].
Proof. reflexivity. Qed.

(** A loop sends what its iterations send, in the order of the slice. *)
Lemma sent_forRange {A : Type} (body : nat → A → Emit unit) (l : list A) :
  ∀ i, sent (forRange body i l)
       = concat (imap (λ j x, sent (body (i + j)%nat x)) l).
Proof.
  induction l as [|x l IH]; intros i; [done|].
  simpl. rewrite sent_bind, IH, Nat.add_0_r. f_equal. f_equal.
  apply imap_ext. intros j y _. simpl. f_equal. f_equal. lia.
Qed.

End EmitFacts.

(** ** The consolidation cache *)

Section CacheClaims.
Import Float64 Metrics CPU Examples.

(** C1. Whatever raw snapshots the collector has consolidated since it was
    built (with an empty cache) and whatever snapshot comes next,
    [updateCPUStats] returns, and unless a reset condition fired (the number
    of CPUs differs from the length of the cache, or the idle counter of the
    CPU jumped back by [jumpBackSeconds] or more) every field of every CPU
    of the new cache is [>=] its value in the cache before the call. *)
Theorem cached_counters_never_decrease
    (snapshots : list (list CPUStat)) (newStats : list CPUStat) :
  ∃ cache cache',
    scrapes [] snapshots = Some cache ∧
    updateCPUStats cache newStats = Some cache' ∧
    (length cache = length newStats →
     ∀ i old n new f,
       cache !! i = Some old → newStats !! i = Some n →
       cache' !! i = Some new →
       jumpedBack old n = false →
       leb (get f old) (get f new) = true).
Proof.
  destruct (scrapes_Some snapshots []) as [cache Hs].
  exists cache, (zip_with updateEntry (resetCache cache newStats) newStats).
  split; [done|]. split; [apply updateCPUStats_Some|].
  intros Hlen i old n new f Hold Hn Hnew Hjump.
  assert (HnoNaN : noNaN cache).
  { eapply noNaN_scrapes; [|exact Hs]. by intros j e g Hj. }
  rewrite resetCache_same_length in Hnew by done.
  rewrite lookup_zip_with, Hold, Hn in Hnew. simpl in Hnew.
  injection Hnew as <-.
  rewrite get_updateEntry. unfold resetOnJumpBack. rewrite Hjump.
  apply ratchetValue_leb. by eapply HnoNaN.
Qed.

Lemma cached_counters_never_decrease_witness :
  leb (get user (reading f50 f100)) (get user (reading f50 f100)) = true.
Proof.
  destruct (cached_counters_never_decrease
              [[reading f50 f100]] [reading f49 f100])
    as (cache & cache' & Hs & Hu & H).
  vm_compute in Hs. injection Hs as <-.
  vm_compute in Hu. injection Hu as <-.
  apply (H eq_refl 0%nat (reading f50 f100) (reading f49 f100) _ user);
    reflexivity.
Defined.

(** For any cache, reachable or not, no field goes below its cached value
    when neither reset condition fired. *)
Lemma no_field_decreases (cache newStats cache' : list CPUStat)
    (i : nat) (old n new : CPUStat) (f : counter) :
  updateCPUStats cache newStats = Some cache' →
  length cache = length newStats →
  cache !! i = Some old → newStats !! i = Some n → cache' !! i = Some new →
  jumpedBack old n = false →
  ltb (get f new) (get f old) = false.
Proof.
  intros Hu Hlen Hold Hn Hnew Hjump.
  rewrite (lookup_updateCPUStats _ _ _ i Hu) in Hnew.
  rewrite resetCache_same_length, Hold, Hn in Hnew by done. simpl in Hnew.
  injection Hnew as <-.
  rewrite get_updateEntry. unfold resetOnJumpBack. rewrite Hjump.
  apply ratchetValue_not_ltb.
Qed.

(** One call on a cache that no raw value is below, with raw values that
    are all [>= 0], leaves the raw snapshot in the cache. *)
Lemma updateCPUStats_adopts (cache newStats : list CPUStat) :
  (∀ i e n f, cache !! i = Some e → newStats !! i = Some n →
              geb (get f n) (get f e) = true) →
  (∀ i n f, newStats !! i = Some n → geb (get f n) zero = true) →
  updateCPUStats cache newStats = Some newStats.
Proof.
  intros Hge Hpos. rewrite updateCPUStats_Some. f_equal.
  apply list_eq. intros i. rewrite lookup_zip_with.
  destruct (newStats !! i) as [n|] eqn:Hn.
  2: { by destruct (resetCache cache newStats !! i). }
  destruct (resetCache cache newStats !! i) as [e|] eqn:He.
  2: { apply lookup_ge_None in He. rewrite length_resetCache in He.
       apply lookup_lt_Some in Hn. lia. }
  simpl. f_equal. apply CPUStat_eq. intros f. rewrite get_updateEntry.
  apply ratchetValue_ge. unfold resetOnJumpBack.
  destruct (jumpedBack e n).
  { replace (get f zeroStat) with zero by (by destruct f). by eapply Hpos. }
  revert He. unfold resetCache. case_bool_decide.
  - intros [-> _]%lookup_replicate.
    replace (get f zeroStat) with zero by (by destruct f). by eapply Hpos.
  - intros He. by eapply Hge.
Qed.

(** C2, as written, fails: a raw value below zero (here [-1.0] seconds of
    user time, twice in a row) is never adopted, the cache is allocated at
    zero and stays there. *)
Lemma ratchet_noop_counterexample :
  ¬ (∀ snapshots : list (list CPUStat),
       wellBehaved snapshots →
       ∀ k raw, snapshots !! k = Some raw →
                scrapes [] (take (S k) snapshots) = Some raw).
Proof.
  intros H.
  specialize (H [[reading minus1 f100]; [reading minus1 f100]]).
  assert (Hw : wellBehaved [[reading minus1 f100]; [reading minus1 f100]]).
  { intros [|[|k]] a b Ha Hb; try done.
    injection Ha as <-. injection Hb as <-. split; [done|].
    intros [|i] x y f Hx Hy; [|done].
    injection Hx as <-. injection Hy as <-. by destruct f. }
  specialize (H Hw 0%nat _ eq_refl). vm_compute in H. discriminate H.
Qed.

(** C2, amended. For every sequence of raw snapshots with a constant number
    of CPUs whose fields are all [>= 0] and non-decreasing from one snapshot
    to the next, the cache after each call of [updateCPUStats] is the raw
    snapshot just supplied. *)
Theorem ratchet_noop_on_well_behaved_input (snapshots : list (list CPUStat)) :
  wellBehaved snapshots →
  nonNegative snapshots →
  ∀ k raw, snapshots !! k = Some raw →
           scrapes [] (take (S k) snapshots) = Some raw.
Proof.
  intros Hw Hpos k. induction k as [|k IH]; intros raw Hraw.
  - destruct snapshots as [|s later]; [done|]. injection Hraw as ->.
    simpl.
    rewrite updateCPUStats_adopts; [done| |].
    + by intros i e n f Hi.
    + intros i n f Hn. by eapply (Hpos 0%nat raw).
  - assert (is_Some (snapshots !! k)) as [prev Hprev].
    { apply lookup_lt_is_Some. apply lookup_lt_Some in Hraw. lia. }
    rewrite (take_S_r _ _ _ Hraw), scrapes_snoc, (IH _ Hprev). simpl.
    apply updateCPUStats_adopts.
    + intros i e n f He Hn.
      destruct (Hw k prev raw Hprev Hraw) as [_ Hf]. by eapply Hf.
    + intros i n f Hn. by eapply (Hpos (S k) raw).
Qed.

Lemma ratchet_noop_on_well_behaved_input_witness :
  scrapes [] (take 2 [[reading f49 f96_5]; [reading f50 f100]])
  = Some [reading f50 f100].
Proof.
  apply (ratchet_noop_on_well_behaved_input
           [[reading f49 f96_5]; [reading f50 f100]]).
  - intros [|[|k]] a b Ha Hb; try done.
    injection Ha as <-. injection Hb as <-. split; [reflexivity|].
    intros [|i] x y f Hx Hy; [|done].
    injection Hx as <-. injection Hy as <-. by destruct f.
  - intros [|[|k]] a i x f Ha Hx; try done;
      injection Ha as <-; destruct i as [|i]; try done;
      injection Hx as <-; by destruct f.
  - reflexivity.
Defined.

(** C3, as written, fails. With idle cached at [100.0] and read at [96.5]
    for CPU 0, the reset fires, but the blocks that follow it in the same
    iteration adopt the raw values over the zeroed entry: after the call
    the idle counter of CPU 0 is [96.5] and its user counter is the raw
    [10.0], not zero, and these are the values [Update] sends. *)
Lemma idle_jump_back_counterexample :
  jumpedBack (reading f50 f100) (reading f10 f96_5) = true ∧
  updateCPUStats [reading f50 f100; reading f50 f100]
                 [reading f10 f96_5; reading f49 f100]
  = Some [reading f10 f96_5; reading f50 f100] ∧
  ¬ (∃ c1', updateCPUStats [reading f50 f100; reading f50 f100]
                           [reading f10 f96_5; reading f49 f100]
            = Some [zeroStat; c1']) ∧
  (∀ enableCPUGuest c' out,
     Update enableCPUGuest
       (collector [reading f50 f100; reading f50 f100])
       [reading f10 f96_5; reading f49 f100] = Some (c', out) →
     MustNewConstMetric seconds CounterValue f96_5 ["0"; "idle"] ∈ sent out ∧
     MustNewConstMetric seconds CounterValue zero ["0"; "idle"] ∉ sent out).
Proof.
  split; [reflexivity|]. split; [reflexivity|].
  split; [intros [c1' H]; vm_compute in H; discriminate H|].
  intros [] c' out H; vm_compute in H; injection H as <- <-;
    (split; [|intros Hin]).
  - apply (list_elem_of_lookup_2 _ 3%nat). reflexivity.
  - apply list_elem_of_In in Hin. simpl in Hin.
    repeat (destruct Hin as [Hin | Hin]; [discriminate Hin|]). exact Hin.
  - apply (list_elem_of_lookup_2 _ 3%nat). reflexivity.
  - apply list_elem_of_In in Hin. simpl in Hin.
    repeat (destruct Hin as [Hin | Hin]; [discriminate Hin|]). exact Hin.
Qed.

(** C3, amended. With two CPUs, idle cached at [100.0] and read at [96.5]
    for CPU 0, [updateCPUStats] discards what was cached for CPU 0: its new
    entry is the one a zero entry gives with this reading, every field being
    the raw value if that is [>= 0] and zero otherwise (so idle is [96.5]),
    whatever was cached; the entry of CPU 1 comes from its own cached and
    raw values alone; and [Update] sends these values for CPU 0. *)
Theorem idle_jump_back_resets_one_cpu (e0 e1 n0 n1 : CPUStat) :
  Idle e0 = f100 →
  Idle n0 = f96_5 →
  ∃ c0' c1',
    updateCPUStats [e0; e1] [n0; n1] = Some [c0'; c1'] ∧
    c0' = updateEntry zeroStat n0 ∧
    (∀ f, get f c0' = ratchetValue (get f n0) zero) ∧
    Idle c0' = f96_5 ∧
    c1' = updateEntry e1 n1 ∧
    (∀ enableCPUGuest c,
       cpuStats c = [e0; e1] →
       ∃ c' out,
         Update enableCPUGuest c [n0; n1] = Some (c', out) ∧
         cpuStats c' = [c0'; c1'] ∧
         sent (emitCPU enableCPUGuest c' 0 c0') `prefix_of` sent out).
Proof.
  intros He0 Hn0.
  assert (Hj : jumpedBack e0 n0 = true).
  { unfold jumpedBack. by rewrite He0, Hn0. }
  assert (Hu : updateCPUStats [e0; e1] [n0; n1]
               = Some [updateEntry zeroStat n0; updateEntry e1 n1]).
  { rewrite updateCPUStats_Some. simpl.
    by rewrite (updateEntry_jumpedBack _ _ Hj). }
  assert (Hf : ∀ f, get f (updateEntry zeroStat n0)
                    = ratchetValue (get f n0) zero).
  { intros f. rewrite get_updateEntry, resetOnJumpBack_zero. by destruct f. }
  exists (updateEntry zeroStat n0), (updateEntry e1 n1).
  repeat split; try done.
  - pose proof (Hf idle) as Hi. simpl in Hi. rewrite Hi, Hn0. reflexivity.
  - intros enable c Hc. unfold Update. rewrite Hc, Hu.
    cbn [mbind option_bind].
    eexists _, _. split; [reflexivity|]. split; [reflexivity|].
    rewrite sent_bind, sent_forRange.
    cbn [cpuStats with_cpuStats imap concat Nat.add].
    apply prefix_app_r. by eexists.
Qed.

Lemma idle_jump_back_resets_one_cpu_witness :
  ∃ c0' c1',
    updateCPUStats [reading f50 f100; reading f50 f100]
                   [reading f10 f96_5; reading f49 f100]
    = Some [c0'; c1'] ∧
    c0' = updateEntry zeroStat (reading f10 f96_5) ∧
    (∀ f, get f c0' = ratchetValue (get f (reading f10 f96_5)) zero) ∧
    Idle c0' = f96_5 ∧
    c1' = updateEntry (reading f50 f100) (reading f49 f100) ∧
    (∀ enableCPUGuest c,
       cpuStats c = [reading f50 f100; reading f50 f100] →
       ∃ c' out,
         Update enableCPUGuest c [reading f10 f96_5; reading f49 f100]
         = Some (c', out) ∧
         cpuStats c' = [c0'; c1'] ∧
         sent (emitCPU enableCPUGuest c' 0 c0') `prefix_of` sent out).
Proof.
  apply (idle_jump_back_resets_one_cpu
           (reading f50 f100) (reading f50 f100)
           (reading f10 f96_5) (reading f49 f100)); reflexivity.
Defined.

(** C4, as written, fails: it names no exception for a change of the number
    of CPUs. With two CPUs cached at user [50.0] and idle [100.0] and a
    reading of one CPU at user [49.0] and idle [100.0], the idle counter did
    not jump back and the raw user value is below the cached one, yet the
    cache is discarded for the new length and ends at user [49.0]. *)
Lemma regression_counterexample :
  jumpedBack (reading f50 f100) (reading f49 f100) = false ∧
  ltb (get user (reading f49 f100)) (get user (reading f50 f100)) = true ∧
  updateCPUStats [reading f50 f100; reading f50 f100] [reading f49 f100]
  = Some [reading f49 f100] ∧
  get user (reading f49 f100) ≠ get user (reading f50 f100) ∧
  ¬ (∀ (cache newStats : list CPUStat) (i : nat) (e n : CPUStat) (f : counter),
       cache !! i = Some e →
       newStats !! i = Some n →
       f ≠ idle →
       ltb (get f n) (get f e) = true →
       jumpedBack e n = false →
       ∃ cache' e',
         updateCPUStats cache newStats = Some cache' ∧
         cache' !! i = Some e' ∧
         get f e' = get f e).
Proof.
  split; [reflexivity|]. split; [reflexivity|]. split; [reflexivity|].
  split; [discriminate|].
  intros H.
  destruct (H [reading f50 f100; reading f50 f100] [reading f49 f100]
              0%nat (reading f50 f100) (reading f49 f100) user
              eq_refl eq_refl) as (cache' & e' & Hu & He' & Hf);
    [discriminate | reflexivity | reflexivity |].
  vm_compute in Hu. injection Hu as <-.
  vm_compute in He'. injection He' as <-.
  vm_compute in Hf. discriminate Hf.
Qed.

(** C4, amended. Take a raw reading with as many CPUs as the cache has
    entries, a CPU index, and a field other than idle whose raw value is
    [<] the value cached for this CPU, the reset on an idle jump back not
    having fired for this CPU. Then [updateCPUStats] returns and leaves the
    cached value of the field as it was; every field of the CPU has the
    value its own block gives from its own cached value, so no field was
    reset; every other CPU has the entry its own cached and raw entries
    give; and the reset check stays off whatever the other fields hold, for
    it reads the idle values only. *)
Theorem regression_is_absorbed
    (cache newStats : list CPUStat) (i : nat) (e n : CPUStat) (f : counter) :
  length cache = length newStats →
  cache !! i = Some e →
  newStats !! i = Some n →
  f ≠ idle →
  ltb (get f n) (get f e) = true →
  jumpedBack e n = false →
  ∃ cache' e',
    updateCPUStats cache newStats = Some cache' ∧
    cache' !! i = Some e' ∧
    get f e' = get f e ∧
    (∀ g, get g e' = ratchetValue (get g n) (get g e)) ∧
    (∀ j ej nj,
       j ≠ i → cache !! j = Some ej → newStats !! j = Some nj →
       cache' !! j = Some (updateEntry ej nj)) ∧
    (∀ e2 n2, Idle e2 = Idle e → Idle n2 = Idle n → jumpedBack e2 n2 = false).
Proof.
  intros Hlen He Hn Hf Hlt Hj.
  exists (zip_with updateEntry (resetCache cache newStats) newStats),
         (updateEntry e n).
  assert (Hg : ∀ g, get g (updateEntry e n)
                    = ratchetValue (get g n) (get g e)).
  { intros g. rewrite get_updateEntry. unfold resetOnJumpBack. by rewrite Hj. }
  rewrite (resetCache_same_length _ _ Hlen).
  split; [by rewrite updateCPUStats_Some, (resetCache_same_length _ _ Hlen)|].
  split; [by rewrite lookup_zip_with, He, Hn|].
  split; [by rewrite Hg, ratchetValue_lt|].
  split; [done|]. split.
  - intros j ej nj _ Hej Hnj. by rewrite lookup_zip_with, Hej, Hnj.
  - intros e2 n2 H1 H2. unfold jumpedBack in *. by rewrite H1, H2.
Qed.

Lemma regression_is_absorbed_witness :
  ∃ cache' e',
    updateCPUStats [reading f50 f100; reading f50 f100]
                   [reading f49 f100; reading f50 f100] = Some cache' ∧
    cache' !! 0%nat = Some e' ∧
    get user e' = get user (reading f50 f100) ∧
    (∀ g, get g e'
          = ratchetValue (get g (reading f49 f100)) (get g (reading f50 f100))) ∧
    (∀ j ej nj,
       j ≠ 0%nat →
       [reading f50 f100; reading f50 f100] !! j = Some ej →
       [reading f49 f100; reading f50 f100] !! j = Some nj →
       cache' !! j = Some (updateEntry ej nj)) ∧
    (∀ e2 n2, Idle e2 = Idle (reading f50 f100) →
              Idle n2 = Idle (reading f49 f100) → jumpedBack e2 n2 = false).
Proof.
  apply (regression_is_absorbed
           [reading f50 f100; reading f50 f100]
           [reading f49 f100; reading f50 f100]
           0 (reading f50 f100) (reading f49 f100) user);
    [reflexivity | reflexivity | reflexivity | discriminate
    | reflexivity | reflexivity].
Defined.

(** C5. When the number of CPUs of the raw reading differs from the length
    of the cache, [updateCPUStats] returns a cache of the new length in
    which every entry is the one a zero entry gives with the raw entry of
    its index: nothing of the old cache is left, and the result is the one
    of a cache of zeros. So after a history with two CPUs and a reading of
    one CPU, a reading of two CPUs again gives both the entries of a zero
    baseline. *)
Theorem topology_change_discards_cache :
  (∀ cache newStats : list CPUStat,
     length cache ≠ length newStats →
     updateCPUStats cache newStats
     = Some (updateEntry zeroStat <$> newStats) ∧
     updateCPUStats cache newStats
     = updateCPUStats (replicate (length newStats) zeroStat) newStats) ∧
  (∀ c0 c1 n0 m0 m1 : CPUStat,
     scrapes [c0; c1] [[n0]; [m0; m1]]
     = Some [updateEntry zeroStat m0; updateEntry zeroStat m1]).
Proof.
  assert (H : ∀ cache newStats : list CPUStat,
             length cache ≠ length newStats →
             updateCPUStats cache newStats
             = Some (updateEntry zeroStat <$> newStats)).
  { intros cache newStats Hlen.
    rewrite updateCPUStats_Some, resetCache_other_length by done.
    f_equal. apply zip_with_replicate_updateEntry. }
  split.
  - intros cache newStats Hlen. split; [by apply H|].
    rewrite H by done.
    destruct (decide (length newStats = 0%nat)) as [Hz|Hnz].
    + destruct newStats; done.
    + rewrite updateCPUStats_Some, resetCache_same_length
        by (by rewrite length_replicate).
      f_equal. symmetry. apply zip_with_replicate_updateEntry.
  - intros c0 c1 n0 m0 m1. cbn [scrapes].
    rewrite (H [c0; c1] [n0]) by (simpl; lia).
    cbn [mbind option_bind].
    rewrite H by (simpl; lia). reflexivity.
Qed.

Lemma topology_change_discards_cache_witness :
  updateCPUStats [reading f50 f100; reading f50 f100] [reading f10 f96_5]
  = Some (updateEntry zeroStat <$> [reading f10 f96_5]) ∧
  updateCPUStats [reading f50 f100; reading f50 f100] [reading f10 f96_5]
  = updateCPUStats (replicate 1 zeroStat) [reading f10 f96_5].
Proof.
  apply (proj1 topology_change_discards_cache
           [reading f50 f100; reading f50 f100] [reading f10 f96_5]).
  simpl. lia.
Defined.

(** C6. For every cache and every raw snapshot, [updateCPUStats] returns,
    and a second call with the same snapshot returns the same cache. *)
Theorem updateCPUStats_idempotent (cache newStats : list CPUStat) :
  ∃ cache',
    updateCPUStats cache newStats = Some cache' ∧
    updateCPUStats cache' newStats = Some cache'.
Proof.
  exists (zip_with updateEntry (resetCache cache newStats) newStats).
  split; [apply updateCPUStats_Some|].
  rewrite updateCPUStats_Some. f_equal.
  rewrite resetCache_same_length
    by (rewrite length_zip_with, length_resetCache; lia).
  generalize (resetCache cache newStats). intros base. revert base.
  induction newStats as [|n rest IH]; intros [|e base]; simpl; try done.
  by rewrite updateEntry_idemp, IH.
Qed.

End CacheClaims.

(** ** What [Update] sends *)

Section UpdateClaims.
Import Float64 Metrics.

Lemma filter_guest_emitCPU (enable : bool) (c : CPU.cpuCollector)
    (cpuID : nat) (cpuStat : CPU.CPUStat) :
  CPU.cpu c ≠ CPU.cpuGuest c →
  filter (λ m, desc m = CPU.cpuGuest c)
         (sent (CPU.emitCPU enable c cpuID cpuStat))
  = (if enable then
       [ MustNewConstMetric (CPU.cpuGuest c) CounterValue
           (CPU.Guest cpuStat) [Itoa cpuID; "user"];
         MustNewConstMetric (CPU.cpuGuest c) CounterValue
           (CPU.GuestNice cpuStat) [Itoa cpuID; "nice"] ]
     else []).
Proof.
  intros Hne. unfold CPU.emitCPU.
  destruct enable; repeat rewrite ?sent_bind, ?sent_send, ?sent_ret;
    cbn [app];
    repeat first
      [ rewrite filter_cons_False by (cbn [desc]; done)
      | rewrite filter_cons_True by (cbn [desc]; done) ];
    by rewrite filter_nil.
Qed.

Lemma filter_seconds_emitCPU (enable : bool) (c : CPU.cpuCollector)
    (cpuID : nat) (cpuStat : CPU.CPUStat) :
  CPU.cpu c ≠ CPU.cpuGuest c →
  filter (λ m, desc m ≠ CPU.cpuGuest c)
         (sent (CPU.emitCPU enable c cpuID cpuStat))
  = sent (CPU.emitCPU false c cpuID cpuStat).
Proof.
  intros Hne. unfold CPU.emitCPU.
  destruct enable; repeat rewrite ?sent_bind, ?sent_send, ?sent_ret;
    cbn [app];
    repeat first
      [ rewrite filter_cons_True by (cbn [desc]; done)
      | rewrite filter_cons_False by (cbn [desc]; intros H; by apply H) ];
    by rewrite filter_nil.
Qed.

Lemma filter_concat_imap {A : Type} (P : Metric → Prop)
    `{∀ m, Decision (P m)} (f g : nat → A → list Metric) (l : list A) :
  (∀ i x, filter P (f i x) = g i x) →
  filter P (concat (imap f l)) = concat (imap g l).
Proof.
  revert f g. induction l as [|x l IH]; intros f g Hfg; [done|].
  simpl. rewrite filter_app, Hfg. f_equal. apply IH.
  intros i y. apply Hfg.
Qed.

(** C8. When the read of the data source fails, [Update] of the buddyinfo,
    of the bcache (under either setting of the priority statistics) and of
    the cpufreq collector sends no sample and returns an error: the one of
    the reader, wrapped by the first two. *)
Theorem read_failure_sends_nothing :
  (∀ (readBuddyInfo : string → result (list Buddyinfo.BuddyInfo))
     (c : Buddyinfo.buddyinfoCollector) (err : error),
     readBuddyInfo (Buddyinfo.fs c) = Err err →
     sent (Buddyinfo.Update readBuddyInfo c) = [] ∧
     returned (Buddyinfo.Update readBuddyInfo c)
     = Some (Errorf "couldn't get buddyinfo: %w" err)) ∧
  (∀ (Stats : Type)
     (readStats readStatsWithoutPriority : string → result (list Stats))
     (updateBcacheStats : Bcache.bcacheCollector → Stats → Emit unit)
     (priorityStats : bool) (c : Bcache.bcacheCollector) (err : error),
     (if priorityStats then readStats (Bcache.fs c)
      else readStatsWithoutPriority (Bcache.fs c)) = Err err →
     sent (Bcache.Update Stats readStats readStatsWithoutPriority
             updateBcacheStats priorityStats c) = [] ∧
     returned (Bcache.Update Stats readStats readStatsWithoutPriority
                 updateBcacheStats priorityStats c)
     = Some (Errorf "failed to retrieve bcache stats: %w" err)) ∧
  (∀ (readSystemCpufreq : string → result (list CPUFreq.SystemCPUCpufreqStats))
     (c : CPUFreq.cpuFreqCollector) (err : error),
     readSystemCpufreq (CPUFreq.fs c) = Err err →
     sent (CPUFreq.Update readSystemCpufreq c) = [] ∧
     returned (CPUFreq.Update readSystemCpufreq c) = Some err).
Proof.
  split; [|split].
  - intros read c err H. unfold Buddyinfo.Update. by rewrite H.
  - intros Stats read1 read2 upd priorityStats c err H.
    unfold Bcache.Update. by rewrite H.
  - intros read c err H. unfold CPUFreq.Update. by rewrite H.
Qed.

Lemma read_failure_sends_nothing_witness :
  (sent (Buddyinfo.Update (λ _, Err (DataSourceError "open /proc/buddyinfo"))
           {| Buddyinfo.fs := "/proc"; Buddyinfo.desc := Examples.seconds |})
   = []) ∧
  (sent (Bcache.Update unit
           (λ _, Err (DataSourceError "read /sys/fs/bcache"))
           (λ _, Ok [tt])
           (λ _ _, send (MustNewConstMetric Examples.seconds GaugeValue zero []))
           true {| Bcache.fs := "/sys" |})
   = []) ∧
  (returned (CPUFreq.Update (λ _, Err (DataSourceError "read cpufreq"))
               {| CPUFreq.fs := "/sys";
                  CPUFreq.cpuFreq := Examples.seconds;
                  CPUFreq.cpuFreqMin := Examples.seconds;
                  CPUFreq.cpuFreqMax := Examples.seconds;
                  CPUFreq.scalingFreq := Examples.seconds;
                  CPUFreq.scalingFreqMin := Examples.seconds;
                  CPUFreq.scalingFreqMax := Examples.seconds |})
   = Some (DataSourceError "read cpufreq")).
Proof.
  destruct read_failure_sends_nothing as (Hbuddy & Hbcache & Hfreq).
  split; [|split].
  - eapply Hbuddy. reflexivity.
  - eapply Hbcache. reflexivity.
  - eapply Hfreq. reflexivity.
Defined.

(** One branch sends the sample of a field that is present and nothing
    for one that is absent. *)
Lemma sent_sendFreq (d : Desc) (p : option N) (name : string) :
  sent (CPUFreq.sendFreq d p name)
  = omap (λ dp : Desc * option N,
            kHz ← dp.2;
            Some (MustNewConstMetric dp.1 GaugeValue
                    (mul (of_uint64 kHz) CPUFreq.thousand) [name]))
         [(d, p)].
Proof. by destruct p. Qed.

Lemma sent_emitFreq (c : CPUFreq.cpuFreqCollector)
    (stats : CPUFreq.SystemCPUCpufreqStats) :
  sent (CPUFreq.emitFreq c stats) = CPUFreq.frequencySamples c stats.
Proof.
  unfold CPUFreq.emitFreq, CPUFreq.emitFreqRest, CPUFreq.frequencySamples,
    CPUFreq.frequencies.
  rewrite !sent_bind, !sent_sendFreq.
  destruct (CPUFreq.CpuinfoCurrentFrequency stats),
    (CPUFreq.CpuinfoMinimumFrequency stats),
    (CPUFreq.CpuinfoMaximumFrequency stats),
    (CPUFreq.ScalingCurrentFrequency stats),
    (CPUFreq.ScalingMinimumFrequency stats),
    (CPUFreq.ScalingMaximumFrequency stats); reflexivity.
Qed.

(** C10. When the read succeeds, [Update] of the cpufreq collector returns
    no error and sends, record after record, one sample for each frequency
    field that is present and none for a field that is absent; so every
    sample sent is the sample of a present field of some record, and its
    value is the number pointed to, converted to [float64] and multiplied by
    [1000.0]. *)
Theorem cpufreq_samples_of_present_fields
    (readSystemCpufreq : string → result (list CPUFreq.SystemCPUCpufreqStats))
    (c : CPUFreq.cpuFreqCollector)
    (cpuFreqs : list CPUFreq.SystemCPUCpufreqStats) :
  readSystemCpufreq (CPUFreq.fs c) = Ok cpuFreqs →
  returned (CPUFreq.Update readSystemCpufreq c) = None ∧
  sent (CPUFreq.Update readSystemCpufreq c)
  = concat (CPUFreq.frequencySamples c <$> cpuFreqs) ∧
  (∀ m, m ∈ sent (CPUFreq.Update readSystemCpufreq c) →
        ∃ stats d kHz,
          stats ∈ cpuFreqs ∧
          (d, Some kHz) ∈ CPUFreq.frequencies c stats ∧
          m = MustNewConstMetric d GaugeValue
                (mul (of_uint64 kHz) CPUFreq.thousand) [CPUFreq.Name stats]) ∧
  (∀ stats, stats ∈ cpuFreqs →
            length (CPUFreq.frequencySamples c stats)
            = length (filter (λ dp, is_Some dp.2) (CPUFreq.frequencies c stats))).
Proof.
  intros Hread. unfold CPUFreq.Update. rewrite Hread.
  assert (Hsent : sent (forRange (λ _ stats, CPUFreq.emitFreq c stats) 0 cpuFreqs
                        ;; mret None : Emit (option error))
                  = concat (CPUFreq.frequencySamples c <$> cpuFreqs)).
  { rewrite sent_bind, sent_ret, app_nil_r, sent_forRange.
    change (imap _ cpuFreqs)
      with (imap (const (λ stats, sent (CPUFreq.emitFreq c stats))) cpuFreqs).
    rewrite imap_const. f_equal.
    apply list_fmap_ext. intros i stats _. apply sent_emitFreq. }
  split; [by rewrite returned_bind|]. split; [exact Hsent|]. split.
  - intros m Hm. rewrite Hsent in Hm.
    apply list_elem_of_In, in_concat in Hm as (samples & Hsamples & Hm).
    apply list_elem_of_In in Hsamples, Hm.
    apply list_elem_of_fmap in Hsamples as (stats & -> & Hstats).
    unfold CPUFreq.frequencySamples in Hm.
    apply list_elem_of_omap in Hm as ([d p] & Hdp & Hsome).
    destruct p as [kHz|]; [|done]. simpl in Hsome. injection Hsome as <-.
    by exists stats, d, kHz.
  - intros stats _. unfold CPUFreq.frequencySamples.
    generalize (CPUFreq.frequencies c stats). intros l.
    induction l as [|[d [kHz|]] l IH]; [done| |].
    + rewrite filter_cons_True by (simpl; eauto). simpl. by f_equal.
    + rewrite filter_cons_False by (simpl; by intros []). done.
Qed.

Lemma cpufreq_samples_of_present_fields_witness :
  returned (CPUFreq.Update Examples.freqReader Examples.freqCollector) = None ∧
  sent (CPUFreq.Update Examples.freqReader Examples.freqCollector)
  = [ MustNewConstMetric Examples.seconds GaugeValue
        (of_Z2 2400000000 0) ["cpu0"] ].
Proof.
  destruct (cpufreq_samples_of_present_fields
              Examples.freqReader Examples.freqCollector
              [Examples.freqRecord] eq_refl) as (Hret & Hsent & _).
  split; [exact Hret|]. rewrite Hsent. reflexivity.
Defined.

End UpdateClaims.

(** ** The factories *)

Section FactoryClaims.
Import Float64 Metrics.

(** C9. When the root of the kernel pseudo-filesystem cannot be opened
    ([NewFS] returns an error), [NewCPUCollector], [NewBuddyinfoCollector]
    and [NewBcacheCollector] return no collector and the error, wrapped. *)
Theorem factories_fail_fast :
  (∀ (procPath : string) (NewFS : string → result string)
     (BuildFQName : string → string → string → string)
     (namespace cpuCollectorSubsystem : string)
     (nodeCPUSecondsDesc : Desc) (packageThrottleLabels : list string)
     (finish : CPU.cpuCollector → option CPU.cpuCollector * option error)
     (err : error),
     NewFS procPath = Err err →
     CPU.NewCPUCollector procPath NewFS BuildFQName namespace
       cpuCollectorSubsystem nodeCPUSecondsDesc packageThrottleLabels finish
     = (None, Some (Errorf "failed to open procfs: %w" err))) ∧
  (∀ (procPath : string) (NewFS : string → result string)
     (BuildFQName : string → string → string → string)
     (namespace : string) (err : error),
     NewFS procPath = Err err →
     Buddyinfo.NewBuddyinfoCollector procPath NewFS BuildFQName namespace
     = (None, Some (Errorf "failed to open procfs: %w" err))) ∧
  (∀ (sysPath : string) (NewFS : string → result string) (err : error),
     NewFS sysPath = Err err →
     Bcache.NewBcacheCollector sysPath NewFS
     = (None, Some (Errorf "failed to open sysfs: %w" err))).
Proof.
  split; [|split].
  - intros procPath NewFS BuildFQName namespace subsystem d labels finish err H.
    unfold CPU.NewCPUCollector. by rewrite H.
  - intros procPath NewFS BuildFQName namespace err H.
    unfold Buddyinfo.NewBuddyinfoCollector. by rewrite H.
  - intros sysPath NewFS err H.
    unfold Bcache.NewBcacheCollector. by rewrite H.
Qed.

Lemma factories_fail_fast_witness :
  CPU.NewCPUCollector "/proc"
    (λ _, Err (DataSourceError "could not read /proc"))
    (λ a b c, a +:+ "_" +:+ b +:+ "_" +:+ c) "node" "cpu"
    Examples.seconds ["package"] (λ c, (Some c, None))
  = (None, Some (Errorf "failed to open procfs: %w"
                   (DataSourceError "could not read /proc"))) ∧
  Buddyinfo.NewBuddyinfoCollector "/proc"
    (λ _, Err (DataSourceError "could not read /proc"))
    (λ a b c, a +:+ "_" +:+ b +:+ "_" +:+ c) "node"
  = (None, Some (Errorf "failed to open procfs: %w"
                   (DataSourceError "could not read /proc"))) ∧
  Bcache.NewBcacheCollector "/sys"
    (λ _, Err (DataSourceError "could not read /sys"))
  = (None, Some (Errorf "failed to open sysfs: %w"
                   (DataSourceError "could not read /sys"))).
Proof.
  destruct factories_fail_fast as (Hcpu & Hbuddy & Hbcache).
  split; [|split].
  - apply Hcpu. reflexivity.
  - apply Hbuddy. reflexivity.
  - apply Hbcache. reflexivity.
Defined.

End FactoryClaims.

(** * Further properties of the collectors *)

(** ** More on the order of float64 *)

Section Float64Order.
Import Float64.

(** What is [>=] a number [>= 0] is [>= 0]. *)
Lemma geb_zero_trans (x y : float64) :
  geb x y = true → geb y zero = true → geb x zero = true.
Proof.
  destruct x as [sx|sx| |sx mx ex], y as [sy|sy| |sy my ey];
    try done; try (by destruct sx); try (by destruct sy);
    try (by destruct sx, sy).
Qed.

(** Two numbers are always comparable. *)
Lemma leb_of_not_geb (x y : float64) :
  is_nan x = false → is_nan y = false → geb x y = false → leb x y = true.
Proof.
  intros Hx Hy. unfold geb, leb, SFleb.
  destruct (SFcompare x y) as [[]|] eqn:E; try done.
  by destruct x, y.
Qed.

Lemma geb_nan_l (y : float64) : geb S754_nan y = false.
Proof. done. Qed.

Lemma sub_nan_r (x : float64) : sub x S754_nan = S754_nan.
Proof. by destruct x. Qed.

End Float64Order.

(** ** The bounds of the loop, and what the cache can hold *)

Section CacheInvariants.
Import Float64 Metrics CPU.

Lemma rangeLoop_None (newStats : list CPUStat) :
  ∀ (i : nat) (cache : list CPUStat),
    (i ≤ length cache)%nat →
    rangeLoop i newStats cache = None
    ↔ (length cache < i + length newStats)%nat.
Proof.
  induction newStats as [|n rest IH]; intros i cache Hi; simpl.
  - split; [done | lia].
  - unfold loopBody. destruct (cache !! i) as [e|] eqn:He; simpl.
    + apply lookup_lt_Some in He.
      rewrite IH by (rewrite length_insert; lia).
      rewrite length_insert. lia.
    + apply lookup_ge_None in He. split; [lia | done].
Qed.

(** X1. The loop of [updateCPUStats] indexes the cache out of range, and
    panics, exactly when the cache is shorter than the raw reading; the
    check of the lengths before it rules this out: [updateCPUStats] always
    returns, with one entry for each CPU of the reading. *)
Theorem loop_index_in_range :
  (∀ newStats cache : list CPUStat,
     rangeLoop 0 newStats cache = None
     ↔ (length cache < length newStats)%nat) ∧
  (∀ cache newStats : list CPUStat,
     ∃ cache', updateCPUStats cache newStats = Some cache' ∧
               length cache' = length newStats).
Proof.
  split.
  - intros newStats cache. rewrite rangeLoop_None by lia. done.
  - intros cache newStats. rewrite updateCPUStats_Some. eexists.
    split; [done|]. rewrite length_zip_with, length_resetCache. lia.
Qed.

Lemma nonNegative_updateEntry (e n : CPUStat) :
  (∀ f, geb (get f e) zero = true) →
  ∀ f, geb (get f (updateEntry e n)) zero = true.
Proof.
  intros He f. rewrite get_updateEntry.
  assert (Hb : geb (get f (resetOnJumpBack e n)) zero = true).
  { unfold resetOnJumpBack. destruct (jumpedBack e n); [by destruct f | done]. }
  unfold ratchetValue. destruct (geb (get f n) _) eqn:G; [|done].
  by eapply geb_zero_trans.
Qed.

Lemma nonNegative_updateCPUStats (cache newStats cache' : list CPUStat) :
  nonNegativeCache cache → updateCPUStats cache newStats = Some cache' →
  nonNegativeCache cache'.
Proof.
  intros Hc Hu i e' f Hi.
  rewrite (lookup_updateCPUStats _ _ _ i Hu) in Hi.
  destruct (resetCache cache newStats !! i) as [e|] eqn:He; [|done].
  destruct (newStats !! i) as [n|] eqn:Hn; [|done].
  simpl in Hi. injection Hi as <-. apply nonNegative_updateEntry.
  intros g. revert He. unfold resetCache. case_bool_decide.
  - intros [-> _]%lookup_replicate. by destruct g.
  - intros He. by eapply Hc.
Qed.

(** X2. Whatever raw snapshots come in, negative, infinite or NaN, after any
    number of scrapes from the empty cache every cached value, which is
    what [Update] exposes, is a number [>= 0], never a NaN. *)
Theorem cache_never_negative (snapshots : list (list CPUStat)) :
  ∃ cache,
    scrapes [] snapshots = Some cache ∧
    ∀ i e f, cache !! i = Some e →
             geb (get f e) zero = true ∧ is_nan (get f e) = false.
Proof.
  assert (H : ∀ c c', nonNegativeCache c → scrapes c snapshots = Some c' →
                      nonNegativeCache c').
  { induction snapshots as [|s later IH]; intros c c' Hc; simpl.
    - by intros [= <-].
    - destruct (updateCPUStats c s) as [c1|] eqn:E; [|done]. simpl.
      apply IH. by eapply nonNegative_updateCPUStats. }
  destruct (scrapes_Some snapshots []) as [cache Hs]. exists cache.
  split; [done|]. intros i e f Hi.
  assert (Hge : geb (get f e) zero = true).
  { eapply (H [] cache); [|done|done]. by intros j e0 g Hj. }
  split; [done|]. by eapply geb_not_nan_l.
Qed.

(** X3. The cache never under-reports: after a call, the cached value of a
    field is [>=] the raw value just read, whenever that one is a number,
    be there a reset or not. *)
Theorem cache_never_below_raw
    (snapshots : list (list CPUStat)) (newStats : list CPUStat) :
  ∃ cache cache',
    scrapes [] snapshots = Some cache ∧
    updateCPUStats cache newStats = Some cache' ∧
    ∀ i n new f,
      newStats !! i = Some n → cache' !! i = Some new →
      is_nan (get f n) = false →
      leb (get f n) (get f new) = true.
Proof.
  destruct (scrapes_Some snapshots []) as [cache Hs].
  exists cache, (zip_with updateEntry (resetCache cache newStats) newStats).
  split; [done|]. split; [apply updateCPUStats_Some|].
  intros i n new f Hn Hnew Hnan.
  assert (HnoNaN : noNaN cache).
  { eapply noNaN_scrapes; [|exact Hs]. by intros j e g Hj. }
  rewrite lookup_zip_with, Hn in Hnew.
  destruct (resetCache cache newStats !! i) as [e|] eqn:He; [|done].
  simpl in Hnew. injection Hnew as <-.
  rewrite get_updateEntry.
  assert (Hb : is_nan (get f (resetOnJumpBack e n)) = false).
  { unfold resetOnJumpBack. destruct (jumpedBack e n); [by destruct f|].
    revert He. unfold resetCache. case_bool_decide.
    - intros [-> _]%lookup_replicate. by destruct f.
    - intros He. by eapply HnoNaN. }
  unfold ratchetValue. destruct (geb (get f n) _) eqn:G.
  - by apply leb_refl.
  - by apply leb_of_not_geb.
Qed.

End CacheInvariants.

(** ** One CPU at a time *)

Section CacheLocality.
Import Float64 Metrics CPU.

(** X4. CPUs do not interfere: replacing what is cached and what is read
    for one CPU index changes nothing to the entry [updateCPUStats] leaves
    at any other index, be there a reset of that CPU, a regression or a
    change of the number of CPUs. *)
Theorem cpus_do_not_interfere
    (cache newStats : list CPUStat) (i j : nat) (e' n' : CPUStat) :
  j ≠ i →
  (updateCPUStats (<[i := e']> cache) (<[i := n']> newStats) ≫= (.!! j))
  = (updateCPUStats cache newStats ≫= (.!! j)).
Proof.
  intros Hne. rewrite !updateCPUStats_Some. simpl.
  rewrite !lookup_zip_with.
  rewrite (list_lookup_insert_ne newStats) by done.
  replace (resetCache (<[i := e']> cache) (<[i := n']> newStats) !! j)
    with (resetCache cache newStats !! j); [done|].
  unfold resetCache. rewrite !length_insert.
  case_bool_decide; [done|].
  by rewrite list_lookup_insert_ne.
Qed.

Lemma cpus_do_not_interfere_witness :
  (updateCPUStats
     (<[0%nat := Examples.reading Examples.f10 Examples.f10]>
        [Examples.reading Examples.f50 Examples.f100;
         Examples.reading Examples.f50 Examples.f100])
     (<[0%nat := zeroStat]>
        [Examples.reading Examples.f10 Examples.f96_5;
         Examples.reading Examples.f49 Examples.f100]) ≫= (.!! 1%nat))
  = (updateCPUStats
       [Examples.reading Examples.f50 Examples.f100;
        Examples.reading Examples.f50 Examples.f100]
       [Examples.reading Examples.f10 Examples.f96_5;
        Examples.reading Examples.f49 Examples.f100] ≫= (.!! 1%nat)).
Proof.
  apply (cpus_do_not_interfere
           [Examples.reading Examples.f50 Examples.f100;
            Examples.reading Examples.f50 Examples.f100]
           [Examples.reading Examples.f10 Examples.f96_5;
            Examples.reading Examples.f49 Examples.f100]
           0 1).
  discriminate.
Defined.

(** X5. With any number of CPUs, when the idle counter of a CPU jumped
    back by the limit or more, the call leaves for this CPU an entry that
    owes nothing to what was cached: every field is the raw value if that
    is [>= 0], and zero otherwise. *)
Theorem jump_back_discards_entry
    (cache newStats : list CPUStat) (i : nat) (e n : CPUStat) :
  length cache = length newStats →
  cache !! i = Some e →
  newStats !! i = Some n →
  jumpedBack e n = true →
  ∃ cache' new,
    updateCPUStats cache newStats = Some cache' ∧
    cache' !! i = Some new ∧
    ∀ f, get f new = (if geb (get f n) zero then get f n else zero).
Proof.
  intros Hlen He Hn Hj. rewrite updateCPUStats_Some.
  eexists _, (updateEntry e n). split; [done|]. split.
  - by rewrite lookup_zip_with, (resetCache_same_length _ _ Hlen), He, Hn.
  - intros f. rewrite get_updateEntry. unfold resetOnJumpBack. rewrite Hj.
    by destruct f.
Qed.

Lemma jump_back_discards_entry_witness :
  ∃ cache' new,
    updateCPUStats
      [Examples.reading Examples.f50 Examples.f100]
      [Examples.reading Examples.minus1 Examples.f96_5] = Some cache' ∧
    cache' !! 0%nat = Some new ∧
    ∀ f, get f new
         = (if geb (get f (Examples.reading Examples.minus1 Examples.f96_5)) zero
            then get f (Examples.reading Examples.minus1 Examples.f96_5)
            else zero).
Proof.
  apply (jump_back_discards_entry
           [Examples.reading Examples.f50 Examples.f100]
           [Examples.reading Examples.minus1 Examples.f96_5]
           0 (Examples.reading Examples.f50 Examples.f100));
    reflexivity.
Defined.

Lemma updateCPUStats_again (cache newStats cache' : list CPUStat) :
  updateCPUStats cache newStats = Some cache' →
  updateCPUStats cache' newStats = Some cache'.
Proof.
  rewrite updateCPUStats_Some. intros [= <-].
  rewrite updateCPUStats_Some. f_equal.
  rewrite resetCache_same_length
    by (rewrite length_zip_with, length_resetCache; lia).
  generalize (resetCache cache newStats). intros base. revert base.
  induction newStats as [|n rest IH]; intros [|e base]; simpl; try done.
  by rewrite updateEntry_idemp, IH.
Qed.

(** X6. Scraping a reading that does not change, any number of times over,
    leaves the cache as the first of these scrapes left it. *)
Theorem unchanged_reading_scraped_again
    (cache newStats : list CPUStat) (k : nat) :
  scrapes cache (replicate (S k) newStats) = updateCPUStats cache newStats.
Proof.
  revert cache. induction k as [|k IH]; intros cache.
  - simpl. by destruct (updateCPUStats cache newStats).
  - change (replicate (S (S k)) newStats)
      with (newStats :: replicate (S k) newStats).
    cbn [scrapes]. destruct (updateCPUStats cache newStats) as [c1|] eqn:E;
      [|done].
    cbn [mbind option_bind]. rewrite IH. by eapply updateCPUStats_again.
Qed.

End CacheLocality.

(** ** What a loop sends *)

Section LoopSends.
Import Float64 Metrics.

Lemma elem_of_sent_forRange {A : Type} (body : nat → A → Emit unit)
    (l : list A) (m : Metric) :
  ∀ i, m ∈ sent (forRange body i l)
       ↔ ∃ j x, l !! j = Some x ∧ m ∈ sent (body (i + j)%nat x).
Proof.
  induction l as [|x l IH]; intros i; cbn [forRange].
  - rewrite sent_ret, elem_of_nil. split; [done|]. by intros (j & y & ? & _).
  - rewrite sent_bind, elem_of_app, IH. split.
    + intros [Hm | (j & y & Hy & Hm)].
      * exists 0%nat, x. by rewrite Nat.add_0_r.
      * exists (S j), y. split; [done|].
        by replace (i + S j)%nat with (S i + j)%nat by lia.
    + intros ([|j] & y & Hy & Hm).
      * left. injection Hy as ->. by rewrite Nat.add_0_r in Hm.
      * right. exists j, y. split; [done|].
        by replace (S i + j)%nat with (i + S j)%nat by lia.
Qed.

Lemma length_sent_forRange {A : Type} (body : nat → A → Emit unit)
    (k : nat) (l : list A) :
  (∀ i x, length (sent (body i x)) = k) →
  ∀ i, length (sent (forRange body i l)) = (k * length l)%nat.
Proof.
  intros Hk. induction l as [|x l IH]; intros i; cbn [forRange].
  - rewrite sent_ret. simpl. lia.
  - rewrite sent_bind, length_app, Hk, IH. simpl. lia.
Qed.

Lemma length_sent_forRange_with {A : Type} (body : nat → A → Emit unit)
    (f : A → nat) (l : list A) :
  (∀ i x, length (sent (body i x)) = f x) →
  ∀ i, length (sent (forRange body i l)) = sum_list_with f l.
Proof.
  intros Hf. induction l as [|x l IH]; intros i; cbn [forRange].
  - by rewrite sent_ret.
  - rewrite sent_bind, length_app, Hf, IH. done.
Qed.

(** Iterations whose samples differ from one iteration to another, each
    without a repeated series, send no series twice. *)
Lemma NoDup_sent_forRange {A : Type} (body : nat → A → Emit unit)
    (l : list A) :
  ∀ i,
    (∀ j x, l !! j = Some x → NoDup (seriesKey <$> sent (body (i + j)%nat x))) →
    (∀ j j' x x' m m',
       j ≠ j' → l !! j = Some x → l !! j' = Some x' →
       m ∈ sent (body (i + j)%nat x) → m' ∈ sent (body (i + j')%nat x') →
       seriesKey m ≠ seriesKey m') →
    NoDup (seriesKey <$> sent (forRange body i l)).
Proof.
  induction l as [|x l IH]; intros i Hone Hother; cbn [forRange].
  - rewrite sent_ret. constructor.
  - rewrite sent_bind, fmap_app. apply NoDup_app. split; [|split].
    + specialize (Hone 0%nat x eq_refl). by rewrite Nat.add_0_r in Hone.
    + intros key (m & -> & Hm)%list_elem_of_fmap
                 (m' & Hkey & Hm')%list_elem_of_fmap.
      apply elem_of_sent_forRange in Hm' as (j & x' & Hx' & Hm').
      apply (Hother 0%nat (S j) x x' m m'); try done.
      * by rewrite Nat.add_0_r.
      * by replace (i + S j)%nat with (S i + j)%nat by lia.
    + apply IH.
      * intros j y Hy. specialize (Hone (S j) y Hy).
        by replace (i + S j)%nat with (S i + j)%nat in Hone by lia.
      * intros j j' y y' m m' Hjj Hy Hy' Hm Hm'.
        apply (Hother (S j) (S j') y y' m m'); try done; try lia.
        -- by replace (i + S j)%nat with (S i + j)%nat by lia.
        -- by replace (i + S j')%nat with (S i + j')%nat by lia.
Qed.

End LoopSends.

(** ** The samples of the CPU collector *)

Section CPUSamples.
Import Float64 Metrics CPU.

Lemma sent_emitCPU (enable : bool) (c : cpuCollector)
    (cpuID : nat) (cpuStat : CPUStat) :
  sent (emitCPU enable c cpuID cpuStat)
  = [ MustNewConstMetric (cpu c) CounterValue (User cpuStat) [Itoa cpuID; "user"];
      MustNewConstMetric (cpu c) CounterValue (Nice cpuStat) [Itoa cpuID; "nice"];
      MustNewConstMetric (cpu c) CounterValue (System cpuStat) [Itoa cpuID; "system"];
      MustNewConstMetric (cpu c) CounterValue (Idle cpuStat) [Itoa cpuID; "idle"];
      MustNewConstMetric (cpu c) CounterValue (Iowait cpuStat) [Itoa cpuID; "iowait"];
      MustNewConstMetric (cpu c) CounterValue (IRQ cpuStat) [Itoa cpuID; "irq"];
      MustNewConstMetric (cpu c) CounterValue (SoftIRQ cpuStat) [Itoa cpuID; "softirq"];
      MustNewConstMetric (cpu c) CounterValue (Steal cpuStat) [Itoa cpuID; "steal"] ]
    ++ (if enable then
          [ MustNewConstMetric (cpuGuest c) CounterValue (Guest cpuStat) [Itoa cpuID; "user"];
            MustNewConstMetric (cpuGuest c) CounterValue (GuestNice cpuStat) [Itoa cpuID; "nice"] ]
        else []).
Proof. by destruct enable. Qed.

Lemma emitCPU_first_label (enable : bool) (c : cpuCollector)
    (cpuID : nat) (cpuStat : CPUStat) (m : Metric) :
  m ∈ sent (emitCPU enable c cpuID cpuStat) →
  labelValues m !! 0%nat = Some (Itoa cpuID).
Proof.
  rewrite sent_emitCPU. intros [Hm | Hm]%elem_of_app.
  - repeat (apply elem_of_cons in Hm as [-> | Hm]; [done|]).
    by apply elem_of_nil in Hm.
  - destruct enable;
      repeat (apply elem_of_cons in Hm as [-> | Hm]; [done|]);
      by apply elem_of_nil in Hm.
Qed.

Lemma NoDup_emitCPU (enable : bool) (c : cpuCollector)
    (cpuID : nat) (cpuStat : CPUStat) :
  cpu c ≠ cpuGuest c →
  NoDup (seriesKey <$> sent (emitCPU enable c cpuID cpuStat)).
Proof.
  intros Hne. rewrite sent_emitCPU.
  destruct enable; cbn [app fmap list_fmap seriesKey desc labelValues];
    repeat (apply NoDup_cons; split;
            [ rewrite ?not_elem_of_cons; repeat split;
              try apply not_elem_of_nil; intros [= ]; congruence |]);
    apply NoDup_nil_2.
Qed.

(** X8. A call of [Update] sends eight samples for each CPU of the reading,
    and two more each for the guest seconds when they are enabled; and, the
    two descriptors of the collector being different, no two of these
    samples have the same descriptor and label values. *)
Theorem update_sends_each_series_once
    (enableCPUGuest : bool) (c : cpuCollector) (statsCPU : list CPUStat) :
  cpu c ≠ cpuGuest c →
  ∃ c' out,
    Update enableCPUGuest c statsCPU = Some (c', out) ∧
    length (sent out)
    = ((if enableCPUGuest then 10 else 8) * length statsCPU)%nat ∧
    NoDup (seriesKey <$> sent out).
Proof.
  intros Hne. unfold Update. rewrite updateCPUStats_Some.
  cbn [mbind option_bind]. eexists _, _. split; [reflexivity|].
  set (c' := with_cpuStats c _).
  assert (Hne' : cpu c' ≠ cpuGuest c') by done.
  rewrite sent_bind, sent_ret, app_nil_r. split.
  - rewrite (length_sent_forRange _ (if enableCPUGuest then 10 else 8)%nat).
    + unfold c'. cbn [cpuStats with_cpuStats].
      rewrite length_zip_with, length_resetCache. lia.
    + intros i x. rewrite sent_emitCPU. by destruct enableCPUGuest.
  - apply NoDup_sent_forRange.
    + intros i x _. by apply NoDup_emitCPU.
    + intros i i' x x' m m' Hii _ _ Hm Hm' Hkey.
      apply emitCPU_first_label in Hm, Hm'.
      injection Hkey as _ Hl. rewrite Hl, Hm' in Hm.
      injection Hm as Hm. by apply (inj _) in Hm.
Qed.

Lemma update_sends_each_series_once_witness :
  ∃ c' out,
    Update true (Examples.collector [])
      [Examples.reading Examples.f50 Examples.f100;
       Examples.reading Examples.f49 Examples.f96_5] = Some (c', out) ∧
    length (sent out) = (10 * 2)%nat ∧
    NoDup (seriesKey <$> sent out).
Proof.
  apply (update_sends_each_series_once true (Examples.collector [])
           [Examples.reading Examples.f50 Examples.f100;
            Examples.reading Examples.f49 Examples.f96_5]).
  discriminate.
Defined.

End CPUSamples.

(** ** The samples of the buddyinfo collector *)

Section BuddyinfoSamples.
Import Float64 Metrics.

Lemma elem_of_sent_buddyinfo
    (readBuddyInfo : string → result (list Buddyinfo.BuddyInfo))
    (c : Buddyinfo.buddyinfoCollector)
    (buddyInfo : list Buddyinfo.BuddyInfo) (m : Metric) :
  readBuddyInfo (Buddyinfo.fs c) = Ok buddyInfo →
  m ∈ sent (Buddyinfo.Update readBuddyInfo c)
  ↔ ∃ entry size value,
      entry ∈ buddyInfo ∧
      Buddyinfo.Sizes entry !! size = Some value ∧
      m = MustNewConstMetric (Buddyinfo.desc c) GaugeValue value
            [Buddyinfo.Node entry; Buddyinfo.Zone entry; Itoa size].
Proof.
  intros Hread. unfold Buddyinfo.Update. rewrite Hread.
  rewrite sent_bind, sent_ret, app_nil_r, elem_of_sent_forRange. split.
  - intros (j & entry & Hentry & Hm).
    apply elem_of_sent_forRange in Hm as (size & value & Hsize & Hm).
    rewrite sent_send in Hm. apply list_elem_of_singleton in Hm.
    exists entry, size, value. split; [|done].
    apply list_elem_of_lookup. by exists j.
  - intros (entry & size & value & Hentry & Hsize & ->).
    apply list_elem_of_lookup in Hentry as [j Hj].
    exists j, entry. split; [done|].
    apply elem_of_sent_forRange. exists size, value. split; [done|].
    rewrite sent_send. by apply list_elem_of_singleton.
Qed.

(** X9. When the read succeeds, [Update] of the buddyinfo collector returns
    no error and sends one gauge for each size of each entry, and nothing
    else: a sample is sent if and only if it is the count of the free
    blocks of some size of some entry, labelled with the node, the zone and
    the index of the size; a reading with no entry, or with entries without
    sizes, sends nothing. *)
Theorem buddyinfo_one_sample_per_size
    (readBuddyInfo : string → result (list Buddyinfo.BuddyInfo))
    (c : Buddyinfo.buddyinfoCollector)
    (buddyInfo : list Buddyinfo.BuddyInfo) :
  readBuddyInfo (Buddyinfo.fs c) = Ok buddyInfo →
  returned (Buddyinfo.Update readBuddyInfo c) = None ∧
  length (sent (Buddyinfo.Update readBuddyInfo c))
  = sum_list_with (λ entry, length (Buddyinfo.Sizes entry)) buddyInfo ∧
  ∀ m, m ∈ sent (Buddyinfo.Update readBuddyInfo c)
       ↔ ∃ entry size value,
           entry ∈ buddyInfo ∧
           Buddyinfo.Sizes entry !! size = Some value ∧
           m = MustNewConstMetric (Buddyinfo.desc c) GaugeValue value
                 [Buddyinfo.Node entry; Buddyinfo.Zone entry; Itoa size].
Proof.
  intros Hread. split; [|split].
  - unfold Buddyinfo.Update. rewrite Hread. by rewrite returned_bind.
  - unfold Buddyinfo.Update. rewrite Hread.
    rewrite sent_bind, sent_ret, app_nil_r.
    apply length_sent_forRange_with. intros _ entry.
    rewrite (length_sent_forRange _ 1%nat); [lia|done].
  - intros m. by apply elem_of_sent_buddyinfo.
Qed.

Lemma buddyinfo_one_sample_per_size_witness :
  returned (Buddyinfo.Update Examples.buddyReader Examples.buddyCollector)
  = None ∧
  length (sent (Buddyinfo.Update Examples.buddyReader Examples.buddyCollector))
  = sum_list_with (λ entry, length (Buddyinfo.Sizes entry))
      Examples.buddyReading ∧
  ∀ m, m ∈ sent (Buddyinfo.Update Examples.buddyReader Examples.buddyCollector)
       ↔ ∃ entry size value,
           entry ∈ Examples.buddyReading ∧
           Buddyinfo.Sizes entry !! size = Some value ∧
           m = MustNewConstMetric (Buddyinfo.desc Examples.buddyCollector)
                 GaugeValue value
                 [Buddyinfo.Node entry; Buddyinfo.Zone entry; Itoa size].
Proof.
  apply (buddyinfo_one_sample_per_size Examples.buddyReader
           Examples.buddyCollector Examples.buddyReading).
  reflexivity.
Defined.

(** X10. When no two entries of the reading have the same node and zone,
    no two samples [Update] sends have the same label values: the sizes of
    one entry are told apart by their index. *)
Theorem buddyinfo_series_distinct
    (readBuddyInfo : string → result (list Buddyinfo.BuddyInfo))
    (c : Buddyinfo.buddyinfoCollector)
    (buddyInfo : list Buddyinfo.BuddyInfo) :
  readBuddyInfo (Buddyinfo.fs c) = Ok buddyInfo →
  NoDup ((λ entry, (Buddyinfo.Node entry, Buddyinfo.Zone entry)) <$> buddyInfo) →
  NoDup (seriesKey <$> sent (Buddyinfo.Update readBuddyInfo c)).
Proof.
  intros Hread Hnodup. unfold Buddyinfo.Update. rewrite Hread.
  rewrite sent_bind, sent_ret, app_nil_r.
  apply NoDup_sent_forRange.
  - intros j entry _. apply NoDup_sent_forRange.
    + intros size value _. rewrite sent_send. apply NoDup_singleton.
    + intros k k' v v' m m' Hkk _ _ Hm Hm'.
      rewrite sent_send in Hm, Hm'.
      apply list_elem_of_singleton in Hm, Hm'. subst m m'.
      intros [= Heq]. apply (inj _) in Heq. lia.
  - intros j j' entry entry' m m' Hjj Hentry Hentry' Hm Hm'.
    apply elem_of_sent_forRange in Hm as (k & v & _ & Hm).
    apply elem_of_sent_forRange in Hm' as (k' & v' & _ & Hm').
    rewrite sent_send in Hm, Hm'.
    apply list_elem_of_singleton in Hm, Hm'. subst m m'.
    intros [= Hnode Hzone _]. apply Hjj.
    eapply (NoDup_lookup _ j j' _ Hnodup).
    + rewrite list_lookup_fmap, Hentry. reflexivity.
    + rewrite list_lookup_fmap, Hentry'. simpl. by rewrite Hnode, Hzone.
Qed.

Lemma buddyinfo_series_distinct_witness :
  NoDup (seriesKey
           <$> sent (Buddyinfo.Update Examples.buddyReader
                       Examples.buddyCollector)).
Proof.
  apply (buddyinfo_series_distinct Examples.buddyReader
           Examples.buddyCollector Examples.buddyReading).
  - reflexivity.
  - apply NoDup_cons. split.
    + intros Hin. apply list_elem_of_singleton in Hin. discriminate Hin.
    + apply NoDup_singleton.
Defined.



End BuddyinfoSamples.

(** ** The cpufreq collector and its factory *)

Section CPUFreqFactory.
Import Float64 Metrics.

Lemma elem_of_sent_cpufreq
    (readSystemCpufreq : string → result (list CPUFreq.SystemCPUCpufreqStats))
    (c : CPUFreq.cpuFreqCollector) (m : Metric) :
  m ∈ sent (CPUFreq.Update readSystemCpufreq c) →
  ∃ stats d kHz,
    (d, Some kHz) ∈ CPUFreq.frequencies c stats ∧
    m = MustNewConstMetric d GaugeValue (CPUFreq.hertz kHz)
          [CPUFreq.Name stats].
Proof.
  unfold CPUFreq.Update.
  destruct (readSystemCpufreq (CPUFreq.fs c)) as [cpuFreqs|err].
  - rewrite sent_bind, sent_ret, app_nil_r, elem_of_sent_forRange.
    intros (j & stats & _ & Hm). rewrite sent_emitFreq in Hm.
    apply list_elem_of_omap in Hm as ([d p] & Hdp & Hsome).
    destruct p as [kHz|]; [|done]. injection Hsome as <-.
    by exists stats, d, kHz.
  - by intros ?%elem_of_nil.
Qed.

(** X12. [NewCPUFreqCollector] returns no collector and the wrapped error
    when the sysfs root cannot be opened; otherwise it returns a collector
    on the handle [NewFS] gave and no error, and every sample the [Update]
    of this collector sends, whatever is read, is a gauge with one label
    value under a descriptor with the one label name "cpu". *)
Theorem cpufreq_factory
    (sysPath : string) (NewFS : string → result string)
    (BuildFQName : string → string → string → string)
    (namespace cpuCollectorSubsystem : string) :
  (∀ err, NewFS sysPath = Err err →
          CPUFreq.NewCPUFreqCollector sysPath NewFS BuildFQName namespace
            cpuCollectorSubsystem
          = (None, Some (Errorf "failed to open sysfs: %w" err))) ∧
  (∀ fs, NewFS sysPath = Ok fs →
         ∃ c,
           CPUFreq.NewCPUFreqCollector sysPath NewFS BuildFQName namespace
             cpuCollectorSubsystem = (Some c, None) ∧
           CPUFreq.fs c = fs ∧
           ∀ (readSystemCpufreq :
                string → result (list CPUFreq.SystemCPUCpufreqStats))
             (m : Metric),
             m ∈ sent (CPUFreq.Update readSystemCpufreq c) →
             valueType m = GaugeValue ∧
             variableLabels (desc m) = ["cpu"] ∧
             labelsMatch m).
Proof.
  split.
  - intros err H. unfold CPUFreq.NewCPUFreqCollector. by rewrite H.
  - intros fs H. unfold CPUFreq.NewCPUFreqCollector. rewrite H.
    eexists. split; [reflexivity|]. split; [reflexivity|].
    intros read m (stats & d & kHz & Hd & ->)%elem_of_sent_cpufreq.
    unfold CPUFreq.frequencies in Hd.
    repeat (apply elem_of_cons in Hd as [[= -> _] | Hd]; [done|]).
    by apply elem_of_nil in Hd.
Qed.

Lemma cpufreq_factory_witness :
  CPUFreq.NewCPUFreqCollector "/sys"
    (λ _, Err (DataSourceError "could not read /sys"))
    (λ a b c, a +:+ "_" +:+ b +:+ "_" +:+ c) "node" "cpu"
  = (None, Some (Errorf "failed to open sysfs: %w"
                   (DataSourceError "could not read /sys"))) ∧
  ∃ c,
    CPUFreq.NewCPUFreqCollector "/sys" (λ path, Ok path)
      (λ a b c, a +:+ "_" +:+ b +:+ "_" +:+ c) "node" "cpu"
    = (Some c, None) ∧
    CPUFreq.fs c = "/sys".
Proof.
  split.
  - apply (proj1 (cpufreq_factory "/sys"
                    (λ _, Err (DataSourceError "could not read /sys"))
                    (λ a b c, a +:+ "_" +:+ b +:+ "_" +:+ c) "node" "cpu")).
    reflexivity.
  - destruct (proj2 (cpufreq_factory "/sys" (λ path, Ok path)
                       (λ a b c, a +:+ "_" +:+ b +:+ "_" +:+ c) "node" "cpu")
                "/sys" eq_refl) as (c & Hc & Hfs & _).
    by exists c.
Defined.

End CPUFreqFactory.

(** ** The last loop of [updateBcacheStats] *)

Section BcacheSamples.
Import Float64 Metrics.

(** X13. The last loop of [updateBcacheStats] sends one sample for each
    metric gathered, in order, with the value and the type of the metric;
    the first label value is the name of the bcache, and the extra label
    value follows it exactly when it is not the empty string, be there an
    extra label name or not. So, with the one label name of [devLabel], the
    numbers of label names and of label values of a sample agree if and
    only if the metric has no extra label name and an empty extra value, or
    one extra label name and a non-empty extra value. *)
Theorem bcache_one_sample_per_metric
    (BuildFQName : string → string → string → string)
    (namespace subsystem : string) (devLabel : list string)
    (sName : string) (allMetrics : list Bcache.bcacheMetric) :
  length (sent (Bcache.emitMetrics BuildFQName namespace subsystem devLabel
                  sName allMetrics))
  = length allMetrics ∧
  ∀ k m, allMetrics !! k = Some m →
    ∃ s,
      sent (Bcache.emitMetrics BuildFQName namespace subsystem devLabel
              sName allMetrics) !! k = Some s ∧
      value s = Bcache.value m ∧
      valueType s = Bcache.metricType m ∧
      fqName (desc s) = BuildFQName namespace subsystem (Bcache.name m) ∧
      variableLabels (desc s) = devLabel ++ Bcache.extraLabel m ∧
      labelValues s
      = sName :: (if decide (Bcache.extraLabelValue m = "") then []
                  else [Bcache.extraLabelValue m]) ∧
      (length devLabel = 1%nat →
       labelsMatch s
       ↔ length (Bcache.extraLabel m)
         = (if decide (Bcache.extraLabelValue m = "") then 0 else 1)%nat).
Proof.
  unfold Bcache.emitMetrics.
  assert (Hsent : ∀ i,
    sent (forRange (λ _ m, Bcache.emitMetric BuildFQName namespace subsystem
                             devLabel sName m) i allMetrics)
    = (λ m, MustNewConstMetric
              (NewDesc (BuildFQName namespace subsystem (Bcache.name m))
                 (Bcache.desc m) (devLabel ++ Bcache.extraLabel m))
              (Bcache.metricType m) (Bcache.value m)
              (sName :: (if decide (Bcache.extraLabelValue m = "") then []
                         else [Bcache.extraLabelValue m])))
      <$> allMetrics).
  { induction allMetrics as [|m rest IH]; intros i; cbn [forRange].
    - by rewrite sent_ret.
    - rewrite sent_bind, IH. unfold Bcache.emitMetric at 1.
      rewrite sent_send. cbn [app fmap list_fmap]. f_equal. f_equal.
      by repeat case_decide. }
  rewrite Hsent. split; [by rewrite length_fmap|].
  intros k m Hm. eexists. split.
  { rewrite list_lookup_fmap, Hm. reflexivity. }
  repeat split; try done.
  - unfold labelsMatch. cbn [labelValues desc variableLabels].
    rewrite length_app. case_decide; simpl; lia.
  - unfold labelsMatch. cbn [labelValues desc variableLabels].
    rewrite length_app. case_decide; simpl; lia.
Qed.

End BcacheSamples.

(** ** The sign of a converted frequency *)

Section FrequencySign.
Import Float64 Metrics.

(** A number [>= 0] that is not a NaN: [+0], a positive finite number or
    [+Inf]. *)
Lemma geb_zero_cases (x : float64) :
  geb x zero = true
  ↔ x = S754_zero false ∨ x = S754_zero true ∨ x = S754_infinity false
    ∨ ∃ m e, x = S754_finite false m e.
Proof.
  destruct x as [[]|[]| |[] m e]; simpl; split; try done;
    try (intros _; eauto 6; fail);
    intros [H | [H | [H | (m' & e' & H)]]]; discriminate H.
Qed.

Lemma iter_pos_invariant {A : Type} (P : A → Prop) (f : A → A) :
  (∀ x, P x → P (f x)) → ∀ n x, P x → P (SpecFloat.iter_pos f n x).
Proof. intros Hf. induction n as [n IH|n IH|]; simpl; auto. Qed.

Lemma shr_1_nonneg (mrs : shr_record) :
  0 ≤ shr_m mrs → 0 ≤ shr_m (shr_1 mrs).
Proof. destruct mrs as [[|[p|p|]|p] r s]; simpl; lia. Qed.

Lemma shr_nonneg (mrs : shr_record) (e n : Z) :
  0 ≤ shr_m mrs → 0 ≤ shr_m (shr mrs e n).1.
Proof.
  intros H. destruct n as [|p|p]; simpl; try done.
  apply (iter_pos_invariant (λ r, 0 ≤ shr_m r)); [apply shr_1_nonneg | done].
Qed.

Lemma shr_fexp_nonneg (m e : Z) (l : location) :
  0 ≤ m → 0 ≤ shr_m (shr_fexp prec emax m e l).1.
Proof.
  intros H. unfold shr_fexp. apply shr_nonneg.
  by destruct l as [|[]].
Qed.

Lemma round_nearest_even_nonneg (m : Z) (l : location) :
  0 ≤ m → 0 ≤ round_nearest_even m l.
Proof.
  intros H. destruct l as [|[]]; simpl; try done; [|lia].
  destruct (Z.even m); lia.
Qed.

(** Rounding a magnitude with the sign [+] gives [+0], a positive finite
    number or [+Inf]. *)
Lemma binary_round_aux_nonneg (m e : Z) (l : location) :
  0 ≤ m → geb (binary_round_aux prec emax false m e l) zero = true.
Proof.
  intros H. unfold binary_round_aux.
  pose proof (shr_fexp_nonneg m e l H) as H1.
  destruct (shr_fexp prec emax m e l) as [mrs' e']. simpl in H1.
  pose proof (shr_fexp_nonneg _ e' loc_Exact
                (round_nearest_even_nonneg _ (loc_of_shr_record mrs') H1)) as H2.
  destruct (shr_fexp prec emax _ e' loc_Exact) as [mrs'' e'']. simpl in H2.
  destruct (shr_m mrs'') as [|p|p]; [done| |lia].
  by destruct (e'' <=? emax - prec).
Qed.

Lemma of_uint64_nonneg (n : N) : geb (of_uint64 n) zero = true.
Proof.
  unfold of_uint64, of_Z2, binary_normalize.
  destruct n as [|p]; [done|]. simpl. unfold binary_round.
  destruct (shl_align p 0 _) as [mz ez]. by apply binary_round_aux_nonneg.
Qed.

(** X14. Whatever number of kHz sysfs reports, the value of the frequency
    sample in hertz is a number [>= 0]: the conversion and the
    multiplication by [1000.0] give no NaN and no negative value, so none
    is ever sent by [Update]. *)
Theorem frequency_samples_are_nonnegative :
  (∀ kHz : N,
     geb (CPUFreq.hertz kHz) zero = true ∧
     is_nan (CPUFreq.hertz kHz) = false) ∧
  (∀ (readSystemCpufreq :
        string → result (list CPUFreq.SystemCPUCpufreqStats))
     (c : CPUFreq.cpuFreqCollector) (m : Metric),
     m ∈ sent (CPUFreq.Update readSystemCpufreq c) →
     geb (value m) zero = true).
Proof.
  assert (H : ∀ kHz : N, geb (CPUFreq.hertz kHz) zero = true).
  { intros kHz. unfold CPUFreq.hertz.
    pose proof (of_uint64_nonneg kHz) as Hn.
    apply geb_zero_cases in Hn as [-> | [-> | [-> | (m & e & ->)]]];
      try done.
    unfold mul, CPUFreq.thousand. simpl.
    by apply binary_round_aux_nonneg. }
  split.
  - intros kHz. split; [done|]. by eapply geb_not_nan_l.
  - intros read c m (stats & d & kHz & _ & ->)%elem_of_sent_cpufreq.
    apply H.
Qed.

End FrequencySign.

(** ** The values of the CPU samples *)

Section CPUSampleValues.
Import Float64 Metrics CPU.

Lemma emitCPU_value (enable : bool) (c : cpuCollector)
    (cpuID : nat) (cpuStat : CPUStat) (m : Metric) :
  m ∈ sent (emitCPU enable c cpuID cpuStat) →
  ∃ f, value m = get f cpuStat.
Proof.
  rewrite sent_emitCPU. intros [Hm | Hm]%elem_of_app.
  - apply elem_of_cons in Hm as [-> | Hm]; [by exists user|].
    apply elem_of_cons in Hm as [-> | Hm]; [by exists nice|].
    apply elem_of_cons in Hm as [-> | Hm]; [by exists system|].
    apply elem_of_cons in Hm as [-> | Hm]; [by exists idle|].
    apply elem_of_cons in Hm as [-> | Hm]; [by exists iowait|].
    apply elem_of_cons in Hm as [-> | Hm]; [by exists irq|].
    apply elem_of_cons in Hm as [-> | Hm]; [by exists softirq|].
    apply elem_of_cons in Hm as [-> | Hm]; [by exists steal|].
    by apply elem_of_nil in Hm.
  - destruct enable; [|by apply elem_of_nil in Hm].
    apply elem_of_cons in Hm as [-> | Hm]; [by exists guest|].
    apply elem_of_cons in Hm as [-> | Hm]; [by exists guestNice|].
    by apply elem_of_nil in Hm.
Qed.

(** X15. A collector whose cache holds only numbers [>= 0], as the empty
    cache of a new collector does, keeps such a cache through [Update],
    whatever is read, and every sample [Update] sends is a counter whose
    value is a cached one, hence a number [>= 0]: no negative value and no
    NaN is exposed. *)
Theorem update_exposes_nonnegative_counters
    (enableCPUGuest : bool) (c : cpuCollector) (statsCPU : list CPUStat) :
  nonNegativeCache (cpuStats c) →
  ∃ c' out,
    Update enableCPUGuest c statsCPU = Some (c', out) ∧
    nonNegativeCache (cpuStats c') ∧
    ∀ m, m ∈ sent out →
         valueType m = CounterValue ∧
         (∃ i e f, cpuStats c' !! i = Some e ∧ value m = get f e) ∧
         geb (value m) zero = true.
Proof.
  intros Hc. unfold Update.
  destruct (updateCPUStats (cpuStats c) statsCPU) as [cache'|] eqn:Hu.
  2: { by rewrite updateCPUStats_Some in Hu. }
  cbn [mbind option_bind]. eexists _, _. split; [reflexivity|].
  assert (Hc' : nonNegativeCache cache')
    by (by eapply nonNegative_updateCPUStats).
  split; [done|]. intros m.
  rewrite sent_bind, sent_ret, app_nil_r, elem_of_sent_forRange.
  cbn [cpuStats with_cpuStats]. intros (j & e & He & Hm).
  assert (Hty : valueType m = CounterValue).
  { revert Hm. rewrite sent_emitCPU. intros [Hm | Hm]%elem_of_app.
    - repeat (apply elem_of_cons in Hm as [-> | Hm]; [done|]).
      by apply elem_of_nil in Hm.
    - destruct enableCPUGuest;
        repeat (apply elem_of_cons in Hm as [-> | Hm]; [done|]);
        by apply elem_of_nil in Hm. }
  apply emitCPU_value in Hm as [f Hf].
  split; [done|]. split; [by exists j, e, f|].
  rewrite Hf. by eapply Hc'.
Qed.

Lemma update_exposes_nonnegative_counters_witness :
  ∃ c' out,
    Update true (Examples.collector [])
      [Examples.reading Examples.minus1 Examples.f100] = Some (c', out) ∧
    nonNegativeCache (cpuStats c') ∧
    ∀ m, m ∈ sent out →
         valueType m = CounterValue ∧
         (∃ i e f, cpuStats c' !! i = Some e ∧ value m = get f e) ∧
         geb (value m) zero = true.
Proof.
  apply (update_exposes_nonnegative_counters true (Examples.collector [])
           [Examples.reading Examples.minus1 Examples.f100]).
  intros i e f Hi. discriminate Hi.
Defined.

End CPUSampleValues.

(** ** The guest seconds and their toggle *)

Section GuestToggle.
Import Float64 Metrics CPU.

(** C7. Take a collector whose two descriptors differ and a reading, and let
    the cache be the one [updateCPUStats] gives for it. With the toggle on
    and with it off, [Update] leaves this same cache in the collector and
    returns no error. With the toggle on, the samples under the descriptor
    of the guest seconds are the cached [Guest] and [GuestNice] of every
    CPU, with the modes "user" and "nice"; with it off there is none. The
    samples under the other descriptor are the same with the toggle on as
    with it off: the eight cached modes of every CPU, the user and nice
    seconds being the cached [User] and [Nice], with no guest time taken
    off. *)
Theorem guest_family_iff_enabled
    (c : cpuCollector) (statsCPU : list CPUStat) :
  cpu c ≠ cpuGuest c →
  ∃ cache' out_on out_off,
    updateCPUStats (cpuStats c) statsCPU = Some cache' ∧
    Update true c statsCPU = Some (with_cpuStats c cache', out_on) ∧
    Update false c statsCPU = Some (with_cpuStats c cache', out_off) ∧
    returned out_on = None ∧
    returned out_off = None ∧
    filter (λ m, desc m = cpuGuest c) (sent out_on)
    = guestFamily (with_cpuStats c cache') ∧
    filter (λ m, desc m = cpuGuest c) (sent out_off) = [] ∧
    filter (λ m, desc m ≠ cpuGuest c) (sent out_on) = sent out_off ∧
    sent out_off = secondsFamily (with_cpuStats c cache') ∧
    ∀ i e, cache' !! i = Some e →
      MustNewConstMetric (cpu c) CounterValue (User e) [Itoa i; "user"]
        ∈ sent out_off ∧
      MustNewConstMetric (cpu c) CounterValue (Nice e) [Itoa i; "nice"]
        ∈ sent out_off ∧
      MustNewConstMetric (cpu c) CounterValue (User e) [Itoa i; "user"]
        ∈ sent out_on ∧
      MustNewConstMetric (cpu c) CounterValue (Nice e) [Itoa i; "nice"]
        ∈ sent out_on ∧
      MustNewConstMetric (cpuGuest c) CounterValue (Guest e) [Itoa i; "user"]
        ∈ sent out_on ∧
      MustNewConstMetric (cpuGuest c) CounterValue (GuestNice e) [Itoa i; "nice"]
        ∈ sent out_on.
Proof.
  intros Hne. unfold Update. rewrite updateCPUStats_Some.
  cbn [mbind option_bind].
  set (cache' := zip_with updateEntry _ statsCPU).
  set (c' := with_cpuStats c cache').
  assert (Hne' : cpu c' ≠ cpuGuest c') by done.
  eexists cache', _, _.
  split; [reflexivity|]. split; [reflexivity|]. split; [reflexivity|].
  split; [by rewrite returned_bind|]. split; [by rewrite returned_bind|].
  rewrite !sent_bind, !sent_ret, !app_nil_r.
  change (cpuGuest c) with (cpuGuest c'). change (cpu c) with (cpu c').
  split; [|split; [|split; [|split]]].
  - rewrite sent_forRange. apply filter_concat_imap. intros i x.
    by rewrite filter_guest_emitCPU.
  - rewrite sent_forRange.
    rewrite (filter_concat_imap _ _ (λ _ _, [])).
    + generalize (cpuStats c'). intros l.
      assert (Hg : ∀ (f : nat → CPUStat → list Metric),
                 (∀ i x, f i x = []) → concat (imap f l) = []).
      { induction l as [|x l IH]; intros f Hf; [done|].
        simpl. rewrite Hf. simpl. apply IH. intros i y. apply Hf. }
      by apply Hg.
    + intros i x. by rewrite filter_guest_emitCPU.
  - rewrite !sent_forRange. apply filter_concat_imap. intros i x.
    by rewrite filter_seconds_emitCPU.
  - rewrite sent_forRange. reflexivity.
  - intros i e He.
    assert (Hin : ∀ enable m,
              m ∈ sent (emitCPU enable c' i e) →
              m ∈ sent (forRange (emitCPU enable c') 0 (cpuStats c'))).
    { intros enable m Hm. apply elem_of_sent_forRange.
      exists i, e. by split. }
    repeat split; apply Hin; rewrite sent_emitCPU, elem_of_app.
    + left. apply elem_of_cons. by left.
    + left. apply elem_of_cons. right. apply elem_of_cons. by left.
    + left. apply elem_of_cons. by left.
    + left. apply elem_of_cons. right. apply elem_of_cons. by left.
    + right. apply elem_of_cons. by left.
    + right. apply elem_of_cons. right. apply elem_of_cons. by left.
Qed.

Lemma guest_family_iff_enabled_witness :
  ∃ cache' out_on out_off,
    updateCPUStats (cpuStats (Examples.collector []))
      [Examples.reading Examples.f50 Examples.f100] = Some cache' ∧
    Update true (Examples.collector [])
      [Examples.reading Examples.f50 Examples.f100]
    = Some (with_cpuStats (Examples.collector []) cache', out_on) ∧
    Update false (Examples.collector [])
      [Examples.reading Examples.f50 Examples.f100]
    = Some (with_cpuStats (Examples.collector []) cache', out_off) ∧
    length (sent out_on) = 10%nat ∧
    length (sent out_off) = 8%nat ∧
    filter (λ m, desc m ≠ cpuGuest (Examples.collector [])) (sent out_on)
    = sent out_off ∧
    MustNewConstMetric Examples.seconds CounterValue Examples.f50 ["0"; "user"]
      ∈ sent out_on.
Proof.
  destruct (guest_family_iff_enabled (Examples.collector [])
              [Examples.reading Examples.f50 Examples.f100])
    as (cache' & out_on & out_off & Hu & Hon & Hoff & _ & _ & _ & _
        & Hsame & _ & Hin); [discriminate|].
  exists cache', out_on, out_off.
  split; [exact Hu|]. split; [exact Hon|]. split; [exact Hoff|].
  vm_compute in Hu. injection Hu as <-.
  vm_compute in Hon. injection Hon as <-.
  vm_compute in Hoff. injection Hoff as <-.
  split; [reflexivity|]. split; [reflexivity|]. split; [exact Hsame|].
  apply (list_elem_of_lookup_2 _ 0%nat). reflexivity.
Defined.

End GuestToggle.
